(** * Load balancer resource of the baremetal Terraform provider

    A shallow embedding of [lb/loadbalancer_resource.go] and
    [lb/loadbalancer_resource_crud.go], and the lifecycle properties of
    the reconciliation it implements: identity resolution between a work
    request and the load balancer it produces, composite state, polling,
    and the projection of the remote resource onto the persisted fields. *)

From Stdlib Require Import Ascii String List Bool ZArith Lia.
From stdpp Require Import base option list strings gmap fin_maps.

Local Open Scope string_scope.

(** ** Go values shared by every package *)

(** The errors that travel through the [error] return values.  The
    control plane's "not found" answer is kept apart from every other
    service error; the two last constructors are the poller's own. *)
Inductive error : Type :=
  | NotFound
  | ServiceError (msg : string)
  | SetError (key : string)
  | UnexpectedStateError (state : string)
  | TimeoutError.

#[global] Instance error_eq_dec : EqDecision error.
Proof. solve_decision. Defined.

(** [strings.HasPrefix(s, prefix)] *)
Definition HasPrefix (s prefix : string) : bool := String.prefix prefix s.
Arguments HasPrefix : simpl never.

(** ** Package baremetal: the SDK's records and constants *)

Module baremetal.

Module WorkRequest.
Record t : Type := Build
  { ID : string;
    LoadBalancerID : string;
    State : string }.
End WorkRequest.

Module IPAddress.
Record t : Type := Build
  { IPAddress : string;
    IsPublic : bool }.
End IPAddress.

Module LoadBalancer.
Record t : Type := Build
  { ID : string;
    CompartmentID : string;
    DisplayName : string;
    Shape : string;
    SubnetIDs : list string;
    State : string;
    TimeCreated : Z;
    IPAddresses : list IPAddress.t }.
End LoadBalancer.

(** The SDK's constants are declared outside this repository; the code
    is verified for every value they may have.  [Time_String] is the
    [String] method of the SDK's time stamp. *)
Class Constants : Type :=
  { ResourceWaitingForWorkRequest : string;
    ResourceCreating : string;
    ResourceActive : string;
    ResourceDeleting : string;
    ResourceDeleted : string;
    WorkRequestSucceeded : string;
    Time_String : Z -> string }.

End baremetal.

(** ** Package client: the control plane seen from the provider

    [W] is the state of the remote side.  Every method takes it and
    returns it, so that two calls with the same arguments may answer
    differently.  A Go method returning a pointer and an error may
    return any combination of a nil pointer and a nil error. *)
Module client.

Class BareMetalClient (W : Type) : Type :=
  { CreateLoadBalancer :
      W -> string -> string -> list string -> string -> W * (string * option error);
    UpdateLoadBalancer :
      W -> string -> string -> W * (string * option error);
    DeleteLoadBalancer :
      W -> string -> W * (string * option error);
    GetWorkRequest :
      W -> string -> W * (option baremetal.WorkRequest.t * option error);
    GetLoadBalancer :
      W -> string -> W * (option baremetal.LoadBalancer.t * option error) }.

(** The calls issued to the control plane, in the order they were made. *)
Inductive Call : Type :=
  | CreateLoadBalancerCall (compartmentID shape : string)
                           (subnetIDs : list string) (displayName : string)
  | UpdateLoadBalancerCall (id displayName : string)
  | DeleteLoadBalancerCall (id : string)
  | GetWorkRequestCall (id : string)
  | GetLoadBalancerCall (id : string).

#[global] Instance Call_eq_dec : EqDecision Call.
Proof. solve_decision. Defined.

(** A scripted control plane: the remote state is the list of answers
    still to give, and every call consumes the next one. *)
Inductive Answer : Type :=
  | Handle (h : string) (e : option error)
  | WorkRequestAnswer (wr : option baremetal.WorkRequest.t) (e : option error)
  | LoadBalancerAnswer (lb : option baremetal.LoadBalancer.t) (e : option error).

Definition scriptHandle (w : list Answer) : list Answer * (string * option error) :=
  match w with
  | Handle h e :: w' => (w', (h, e))
  | _ => (tl w, ("", Some (ServiceError "unexpected call")))
  end.

#[global] Instance scripted : BareMetalClient (list Answer) :=
  {| CreateLoadBalancer w _ _ _ _ := scriptHandle w;
     UpdateLoadBalancer w _ _ := scriptHandle w;
     DeleteLoadBalancer w _ := scriptHandle w;
     GetWorkRequest w _ :=
       match w with
       | WorkRequestAnswer wr e :: w' => (w', (wr, e))
       | _ => (tl w, (None, Some (ServiceError "unexpected call")))
       end;
     GetLoadBalancer w _ :=
       match w with
       | LoadBalancerAnswer lb e :: w' => (w', (lb, e))
       | _ => (tl w, (None, Some (ServiceError "unexpected call")))
       end |}.

End client.

(** ** Package schema: the persisted field map *)

Module schema.

Inductive ValueType : Type := TypeString | TypeList.

Inductive Value : Type :=
  | VString (s : string)
  | VList (l : list string).

#[global] Instance Value_eq_dec : EqDecision Value.
Proof. solve_decision. Defined.

Definition typeOf (v : Value) : ValueType :=
  match v with VString _ => TypeString | VList _ => TypeList end.

Definition zero (t : ValueType) : Value :=
  match t with TypeString => VString "" | TypeList => VList [] end.

Definition ValueType_eqb (a b : ValueType) : bool :=
  match a, b with
  | TypeString, TypeString | TypeList, TypeList => true
  | _, _ => false
  end.

Inductive TimeoutKey : Type := TimeoutCreate | TimeoutDelete.

(** A timeout is counted in refresh rounds: the number of polls that
    fit in the configured duration. *)
Record ResourceData : Type := BuildResourceData
  { id : string;
    fields : gmap string Value;
    partial : bool;
    timeouts : TimeoutKey -> nat }.

(** The type assertions [.(string)] and [.([]interface{})] applied to
    what [Get] returns.  [Get] answers with a value of the declared type
    of the key, so on the keys of the schema the assertions never fail. *)
Definition asString (v : Value) : string :=
  match v with VString s => s | VList _ => "" end.

Definition asList (v : Value) : list string :=
  match v with VList l => l | VString _ => [] end.

End schema.

(** ** lb/loadbalancer_resource.go: the schema of the resource *)

Definition LoadBalancerResource_Schema (key : string) : option schema.ValueType :=
  if String.eqb key "compartment_id" then Some schema.TypeString
  else if String.eqb key "shape" then Some schema.TypeString
  else if String.eqb key "subnet_ids" then Some schema.TypeList
  else if String.eqb key "display_name" then Some schema.TypeString
  else if String.eqb key "id" then Some schema.TypeString
  else if String.eqb key "ip_addresses" then Some schema.TypeList
  else if String.eqb key "state" then Some schema.TypeString
  else if String.eqb key "time_created" then Some schema.TypeString
  else None.

(** The methods of [schema.ResourceData] the resource uses, over the
    schema above. *)
Module ResourceData.
Import schema.

Definition Id (d : ResourceData) : string := id d.

Definition SetId (v : string) (d : ResourceData) : ResourceData :=
  {| id := v; fields := fields d; partial := partial d; timeouts := timeouts d |}.

(** [Get] answers with a value of the key's declared type: the stored
    one, or the zero value of the type when nothing is stored. *)
Definition Get (key : string) (d : ResourceData) : Value :=
  match LoadBalancerResource_Schema key with
  | Some t =>
      match fields d !! key with
      | Some v => if ValueType_eqb (typeOf v) t then v else zero t
      | None => zero t
      end
  | None => VString ""
  end.

Definition isZero (v : Value) : bool :=
  match v with
  | VString s => bool_decide (s = "")
  | VList l => bool_decide (l = [])
  end.

(** [GetOk]: the value, and whether it is set to a non-zero value. *)
Definition GetOk (key : string) (d : ResourceData) : Value * bool :=
  (Get key d, negb (isZero (Get key d))).

(** [Set], written [Set_] here, refuses a key outside the schema and a
    value of another type, and then leaves the fields as they are. *)
Definition Set_ (key : string) (v : Value) (d : ResourceData)
  : ResourceData * option error :=
  match LoadBalancerResource_Schema key with
  | Some t =>
      if ValueType_eqb (typeOf v) t
      then ({| id := id d; fields := <[key := v]> (fields d);
               partial := partial d; timeouts := timeouts d |}, None)
      else (d, Some (SetError key))
  | None => (d, Some (SetError key))
  end.

Definition Partial (on : bool) (d : ResourceData) : ResourceData :=
  {| id := id d; fields := fields d; partial := on; timeouts := timeouts d |}.

Definition Timeout (key : TimeoutKey) (d : ResourceData) : nat := timeouts d key.

End ResourceData.

(** ** Control flow: state passing with panics

    Go's [error] is an ordinary return value; [panic] and a nil pointer
    dereference abandon the call.  A computation takes the receiver and
    returns it together with a value or the panic that stopped it. *)

Inductive PanicValue : Type :=
  | EmptyID
  | EmptyLoadBalancerID
  | UnexpectedPrefix (id : string)
  | NilPointerDereference.

Inductive Res (A : Type) : Type :=
  | Val (a : A)
  | Panic (p : PanicValue).
Arguments Val {A} a.
Arguments Panic {A} p.

Definition M (S A : Type) : Type := S -> Res A * S.

Definition ret {S A : Type} (a : A) : M S A := fun s => (Val a, s).

Definition bind {S A B : Type} (c : M S A) (k : A -> M S B) : M S B :=
  fun s =>
    match c s with
    | (Val a, s') => k a s'
    | (Panic p, s') => (Panic p, s')
    end.

Definition panic {S A : Type} (p : PanicValue) : M S A := fun s => (Panic p, s).

Definition gets {S A : Type} (f : S -> A) : M S A := fun s => (Val (f s), s).

Definition modify {S : Type} (f : S -> S) : M S unit := fun s => (Val tt, f s).

Declare Scope go_scope.
Delimit Scope go_scope with go.
Notation "x <- c ;; k" := (bind c (fun x => k))
  (at level 100, c at next level, k at level 200, right associativity) : go_scope.
Notation "c ;; k" := (bind c (fun _ => k))
  (at level 100, k at level 200, right associativity) : go_scope.
(** [err := c; if err != nil { return err }; k] *)
Notation "'check' c ;; k" :=
  (bind c (fun err => match err with Some e => ret (Some e) | None => k end))
  (at level 100, c at next level, k at level 200, right associativity) : go_scope.

(** ** crud.FilterMissingResourceError and resource.StateChangeConf *)

Module crud.

(** Modelled from the spec: [crud.FilterMissingResourceError] is declared
    in the provider's [crud] package, outside these sources.  On the
    distinguished not-found error it voids the resource (clears the
    external identifier) and replaces the error by nil; any other error,
    and nil, are left as they are. *)
Definition FilterMissingResourceError {S : Type}
    (VoidState : M S unit) (err : option error) : M S (option error) :=
  match err with
  | Some NotFound => (VoidState ;; ret None)%go
  | _ => ret err
  end.

End crud.

Module resource.

Record StateChangeConf (S : Type) : Type := BuildStateChangeConf
  { Pending : list string;
    Target : list string;
    Timeout : nat;
    Refresh : M S (string * option error) }.
Arguments BuildStateChangeConf {S}.
Arguments Pending {S}.
Arguments Target {S}.
Arguments Timeout {S}.
Arguments Refresh {S}.

(** Modelled from the spec: [WaitForState] belongs to the host framework's
    [resource] helper, outside these sources.  It calls [Refresh] once
    per round; an error of [Refresh] is returned at once; a state in
    [Target] ends the wait with success; a state in [Pending] goes to the
    next round; any other state is an unexpected-state error; when the
    rounds allowed by the timeout are used up the wait fails with a
    timeout error. *)
Fixpoint poll {S : Type} (rounds : nat) (conf : StateChangeConf S)
  : M S (option error) :=
  match rounds with
  | O => ret (Some TimeoutError)
  | Datatypes.S n =>
      (r <- Refresh conf ;;
       let '(state, err) := r in
       match err with
       | Some e => ret (Some e)
       | None =>
           if bool_decide (state ∈ Target conf) then ret None
           else if bool_decide (state ∈ Pending conf) then poll n conf
           else ret (Some (UnexpectedStateError state))
       end)%go
  end.

Definition WaitForState {S : Type} (conf : StateChangeConf S) : M S (option error) :=
  poll (Timeout conf) conf.

End resource.

(** ** lb/loadbalancer_resource_crud.go *)

(** [LoadBalancerResourceCrud] wraps a [baremetal.LoadBalancer] to support
    crud.  [Client] is the state of the control plane the client talks
    to; [Calls] is a ghost field, the calls issued through [Client] so
    far, oldest first. *)
Record LoadBalancerResourceCrud (W : Type) : Type := BuildCrud
  { D : schema.ResourceData;
    Client : W;
    WorkRequest : option baremetal.WorkRequest.t;
    Resource : option baremetal.LoadBalancer.t;
    Calls : list client.Call }.
Arguments BuildCrud {W}.
Arguments D {W}.
Arguments Client {W}.
Arguments WorkRequest {W}.
Arguments Resource {W}.
Arguments Calls {W}.

Module LoadBalancerResourceCrud.
Import schema.

Section Methods.
Context {W : Type} {cl : client.BareMetalClient W} {sdk : baremetal.Constants}.

Abbreviation crud := (LoadBalancerResourceCrud W).
Abbreviation Go := (M (LoadBalancerResourceCrud W)).

Local Open Scope go_scope.

(** *** Field updates and client calls *)

Definition withD (f : ResourceData -> ResourceData) : Go unit :=
  modify (fun s => BuildCrud (f (D s)) (Client s) (WorkRequest s) (Resource s) (Calls s)).

Definition setWorkRequest (wr : option baremetal.WorkRequest.t) : Go unit :=
  modify (fun s => BuildCrud (D s) (Client s) wr (Resource s) (Calls s)).

Definition setResource (lb : option baremetal.LoadBalancer.t) : Go unit :=
  modify (fun s => BuildCrud (D s) (Client s) (WorkRequest s) lb (Calls s)).

(** [s.D.Set(key, v)], with the error it returns. *)
Definition D_Set (key : string) (v : Value) : Go (option error) :=
  fun s =>
    let '(d, err) := ResourceData.Set_ key v (D s) in
    (Val err, BuildCrud d (Client s) (WorkRequest s) (Resource s) (Calls s)).

Definition D_SetId (v : string) : Go unit := withD (ResourceData.SetId v).

Definition call {A : Type} (c : client.Call) (f : W -> W * A) : Go A :=
  fun s =>
    let '(w, a) := f (Client s) in
    (Val a, BuildCrud (D s) w (WorkRequest s) (Resource s) (Calls s ++ [c])).

Definition Client_CreateLoadBalancer (compartmentID shape : string)
    (subnetIDs : list string) (displayName : string) : Go (string * option error) :=
  call (client.CreateLoadBalancerCall compartmentID shape subnetIDs displayName)
       (fun w => client.CreateLoadBalancer w compartmentID shape subnetIDs displayName).

Definition Client_UpdateLoadBalancer (id displayName : string)
  : Go (string * option error) :=
  call (client.UpdateLoadBalancerCall id displayName)
       (fun w => client.UpdateLoadBalancer w id displayName).

Definition Client_DeleteLoadBalancer (id : string) : Go (string * option error) :=
  call (client.DeleteLoadBalancerCall id) (fun w => client.DeleteLoadBalancer w id).

Definition Client_GetWorkRequest (id : string)
  : Go (option baremetal.WorkRequest.t * option error) :=
  call (client.GetWorkRequestCall id) (fun w => client.GetWorkRequest w id).

Definition Client_GetLoadBalancer (id : string)
  : Go (option baremetal.LoadBalancer.t * option error) :=
  call (client.GetLoadBalancerCall id) (fun w => client.GetLoadBalancer w id).

(** The receiver itself. *)
Definition this : Go crud := gets (fun s => s).

(** *** The accessors *)

(** [State] returns the current state of the load balancer resource (if
    present), of the work request (if present), or an empty string. *)
Definition State : Go string :=
  s <- this ;;
  match Resource s with
  | Some lb => ret (baremetal.LoadBalancer.State lb)
  | None =>
      match WorkRequest s with
      | Some wr => ret (baremetal.WorkRequest.State wr)
      | None => ret ""
      end
  end.

Definition hasResourceID (s : crud) : option baremetal.LoadBalancer.t :=
  match Resource s with
  | Some lb =>
      if bool_decide (baremetal.LoadBalancer.ID lb = "") then None else Some lb
  | None => None
  end.

(** [ID] delegates to the load balancer ID, falling back to the work
    request ID. *)
Definition ID : Go string :=
  s <- this ;;
  match hasResourceID s with
  | Some lb => ret (baremetal.LoadBalancer.ID lb)
  | None =>
      match WorkRequest s with
      | Some wr =>
          if bool_decide (baremetal.WorkRequest.State wr = baremetal.WorkRequestSucceeded)
          then ret (baremetal.WorkRequest.LoadBalancerID wr)
          else ret (baremetal.WorkRequest.ID wr)
      | None => ret ""
      end
  end.

Definition VoidState : Go unit := D_SetId "".

(** *** Get *)

Definition workRequestPrefix : string := "ocid1.loadbalancerworkrequest.".
Definition loadBalancerPrefix : string := "ocid1.loadbalancer.".

(** The tail of [Get]: fetch the load balancer named [id]. *)
Definition fetchLoadBalancer (id : string) : Go (option error) :=
  if negb (HasPrefix id loadBalancerPrefix) then panic (UnexpectedPrefix id)
  else if bool_decide (id = "") then panic EmptyID
  else
    r <- Client_GetLoadBalancer id ;;
    let '(lb, e) := r in
    setResource lb ;;
    ret e.

(** [Get] makes a request to get the load balancer, populating
    [s.Resource].  May modify the identifier and the [state] field.
    The error of the work request refresh is the named result [e]: it is
    returned by the short circuit, and overwritten by the fetch of the
    load balancer. *)
Definition Get : Go (option error) :=
  id <- gets (fun s => ResourceData.Id (D s)) ;;
  if bool_decide (id = "") then panic EmptyID
  else if HasPrefix id workRequestPrefix then
    r <- Client_GetWorkRequest id ;;
    let '(wr, e) := r in
    setWorkRequest wr ;;
    match wr with
    | None => panic NilPointerDereference
    | Some w =>
        D_Set "state" (VString (baremetal.WorkRequest.State w)) ;;
        if bool_decide (baremetal.WorkRequest.State w = baremetal.WorkRequestSucceeded)
        then
          let id := baremetal.WorkRequest.LoadBalancerID w in
          if bool_decide (id = "") then panic EmptyLoadBalancerID
          else
            D_SetId id ;;
            setWorkRequest None ;;
            fetchLoadBalancer id
        else ret e
    end
  else fetchLoadBalancer id.

(** *** SetData *)

(** [SetData] populates the resourceData from the model. *)
Definition SetData : Go unit :=
  s <- this ;;
  match hasResourceID s with
  | Some lb =>
      D_SetId (baremetal.LoadBalancer.ID lb) ;;
      D_Set "compartment_id" (VString (baremetal.LoadBalancer.CompartmentID lb)) ;;
      D_Set "display_name" (VString (baremetal.LoadBalancer.DisplayName lb)) ;;
      D_Set "shape" (VString (baremetal.LoadBalancer.Shape lb)) ;;
      D_Set "subnet_ids" (VList (baremetal.LoadBalancer.SubnetIDs lb)) ;;
      D_Set "id" (VString (baremetal.LoadBalancer.ID lb)) ;;
      D_Set "state" (VString (baremetal.LoadBalancer.State lb)) ;;
      D_Set "time_created"
            (VString (baremetal.Time_String (baremetal.LoadBalancer.TimeCreated lb))) ;;
      let ip_addresses :=
        map baremetal.IPAddress.IPAddress (baremetal.LoadBalancer.IPAddresses lb) in
      D_Set "ip_addresses" (VList ip_addresses) ;;
      ret tt
  | None => ret tt
  end.

(** *** The waits *)

(** The [Refresh] closure of both waits. *)
Definition refresh : Go (string * option error) :=
  err <- Get ;;
  match err with
  | Some e => ret ("", Some e)
  | None => state <- State ;; ret (state, None)
  end.

Definition createdConf (d : ResourceData) : resource.StateChangeConf crud :=
  {| resource.Pending :=
       [baremetal.ResourceWaitingForWorkRequest; baremetal.ResourceCreating];
     resource.Target := [baremetal.ResourceActive];
     resource.Timeout := ResourceData.Timeout TimeoutCreate d;
     resource.Refresh := refresh |}.

Definition deletedConf (d : ResourceData) : resource.StateChangeConf crud :=
  {| resource.Pending :=
       [baremetal.ResourceWaitingForWorkRequest; baremetal.ResourceDeleting];
     resource.Target := [baremetal.ResourceDeleted];
     resource.Timeout := ResourceData.Timeout TimeoutDelete d;
     resource.Refresh := refresh |}.

Definition WaitForCreatedState : Go (option error) :=
  conf <- gets (fun s => createdConf (D s)) ;;
  err <- resource.WaitForState conf ;;
  match err with
  | Some _ => crud.FilterMissingResourceError VoidState err
  | None => ret None
  end.

Definition WaitForDeletedState : Go (option error) :=
  conf <- gets (fun s => deletedConf (D s)) ;;
  err <- resource.WaitForState conf ;;
  match err with
  | Some _ => crud.FilterMissingResourceError VoidState err
  | None => ret None
  end.

(** *** Create, Read, Update, Delete *)

(** [Create] makes a request to create a new load balancer from the
    resourceData.  It should leave the work request set up. *)
Definition Create : Go (option error) :=
  rawNets <- gets (fun s => asList (ResourceData.Get "subnet_ids" (D s))) ;;
  let sns := rawNets in
  displayName <- gets (fun s => asString (ResourceData.Get "display_name" (D s))) ;;
  compartmentID <- gets (fun s => asString (ResourceData.Get "compartment_id" (D s))) ;;
  shape <- gets (fun s => asString (ResourceData.Get "shape" (D s))) ;;
  r <- Client_CreateLoadBalancer compartmentID shape sns displayName ;;
  let '(workReqID, err) := r in
  check ret err ;;
  r <- Client_GetWorkRequest workReqID ;;
  let '(wr, err) := r in
  check ret err ;;
  setWorkRequest wr ;;
  state <- State ;;
  check D_Set "state" (VString state) ;;
  id <- ID ;;
  D_SetId id ;;
  check WaitForCreatedState ;;
  id <- ID ;;
  D_SetId id ;;
  SetData ;;
  ret None.

Definition Read : Go (option error) :=
  err <- Get ;;
  match err with
  | Some _ => crud.FilterMissingResourceError VoidState err
  | None => SetData ;; ret None
  end.

(** [Update] makes a request to update the load balancer. *)
Definition Update : Go (option error) :=
  withD (ResourceData.Partial true) ;;
  displayName <- gets (fun s =>
    let '(displayName, ok) := ResourceData.GetOk "display_name" (D s) in
    if ok then asString displayName else "") ;;
  id <- gets (fun s => ResourceData.Id (D s)) ;;
  r <- Client_UpdateLoadBalancer id displayName ;;
  let '(workReqID, err) := r in
  check ret err ;;
  r <- Client_GetWorkRequest workReqID ;;
  let '(wr, err) := r in
  check ret err ;;
  setWorkRequest wr ;;
  withD (ResourceData.Partial false) ;;
  SetData ;;
  ret err.

(** [Delete] makes a request to delete the load balancer. *)
Definition Delete : Go (option error) :=
  id <- gets (fun s => ResourceData.Id (D s)) ;;
  r <- Client_DeleteLoadBalancer id ;;
  let '(workReqID, err) := r in
  check ret err ;;
  r <- Client_GetWorkRequest workReqID ;;
  let '(wr, err) := r in
  check ret err ;;
  setWorkRequest wr ;;
  err <- WaitForDeletedState ;;
  match err with
  | Some _ => crud.FilterMissingResourceError VoidState err
  | None => VoidState ;; ret err
  end.

End Methods.
End LoadBalancerResourceCrud.

(** ** lb/loadbalancer_resource.go: the entry points

    Each one builds a fresh receiver around the resource data and the
    client, with no work request and no resource. *)

Section EntryPoints.
Context {W : Type} {cl : client.BareMetalClient W} {sdk : baremetal.Constants}.

Definition newCrud (d : schema.ResourceData) (m : W) : LoadBalancerResourceCrud W :=
  {| D := d; Client := m; WorkRequest := None; Resource := None; Calls := [] |}.

Definition createLoadBalancer (d : schema.ResourceData) (m : W) :=
  LoadBalancerResourceCrud.Create (newCrud d m).

Definition readLoadBalancer (d : schema.ResourceData) (m : W) :=
  LoadBalancerResourceCrud.Read (newCrud d m).

Definition updateLoadBalancer (d : schema.ResourceData) (m : W) :=
  LoadBalancerResourceCrud.Update (newCrud d m).

Definition deleteLoadBalancer (d : schema.ResourceData) (m : W) :=
  LoadBalancerResourceCrud.Delete (newCrud d m).

End EntryPoints.

(** ** Vocabulary of the properties *)

(** The panics the specification names [InvalidState]: the identity is
    empty, or carries neither the work request prefix nor the load
    balancer prefix, when a read is attempted. *)
Definition InvalidState (p : PanicValue) : bool :=
  match p with
  | EmptyID | UnexpectedPrefix _ => true
  | EmptyLoadBalancerID | NilPointerDereference => false
  end.

(** The field map after the writes of [SetData], oldest write innermost. *)
Definition written `{baremetal.Constants} (r : baremetal.LoadBalancer.t)
    (fs : gmap string schema.Value) : gmap string schema.Value :=
  <["ip_addresses" :=
      schema.VList (map baremetal.IPAddress.IPAddress (baremetal.LoadBalancer.IPAddresses r))]>
  (<["time_created" :=
      schema.VString (baremetal.Time_String (baremetal.LoadBalancer.TimeCreated r))]>
  (<["state" := schema.VString (baremetal.LoadBalancer.State r)]>
  (<["id" := schema.VString (baremetal.LoadBalancer.ID r)]>
  (<["subnet_ids" := schema.VList (baremetal.LoadBalancer.SubnetIDs r)]>
  (<["shape" := schema.VString (baremetal.LoadBalancer.Shape r)]>
  (<["display_name" := schema.VString (baremetal.LoadBalancer.DisplayName r)]>
  (<["compartment_id" := schema.VString (baremetal.LoadBalancer.CompartmentID r)]> fs))))))).

Section Scenarios.
Context {W : Type} {cl : client.BareMetalClient W} {sdk : baremetal.Constants}.

(** [n] resolutions in a row on one receiver; a panic ends the run. *)
Fixpoint resolutions (n : nat) : M (LoadBalancerResourceCrud W) unit :=
  match n with
  | O => ret tt
  | S k => (LoadBalancerResourceCrud.Get ;; resolutions k)%go
  end.

(** A state on which the create-wait goes to the next round. *)
Definition createPending (state : string) : Prop :=
  (state ∈ [baremetal.ResourceWaitingForWorkRequest; baremetal.ResourceCreating])
  /\ state ≠ baremetal.ResourceActive.

(** [Provisions h r n w w']: from the remote state [w], the control plane
    answers [n] fetches of the load balancer [h] without error, the last
    one with [r] and the ones before with a load balancer the create-wait
    keeps waiting on; [w'] is the remote state after the last fetch. *)
Inductive Provisions (h : string) (r : baremetal.LoadBalancer.t)
  : nat -> W -> W -> Prop :=
  | provisioned w w' :
      client.GetLoadBalancer w h = (w', (Some r, None)) ->
      Provisions h r 1 w w'
  | provisioning n w w1 w' r0 :
      client.GetLoadBalancer w h = (w1, (Some r0, None)) ->
      createPending (baremetal.LoadBalancer.State r0) ->
      Provisions h r n w1 w' ->
      Provisions h r (S n) w w'.

(** [Completes op h r n w w']: the work request [op] is reported in a
    state the create-wait keeps waiting on for some rounds, then
    Succeeded with the load balancer handle [h]; from that same round on
    the load balancer is fetched as [Provisions] says.  [n] counts the
    rounds. *)
Inductive Completes (op h : string) (r : baremetal.LoadBalancer.t)
  : nat -> W -> W -> Prop :=
  | succeeded n w w1 w' o :
      client.GetWorkRequest w op = (w1, (Some o, None)) ->
      baremetal.WorkRequest.State o = baremetal.WorkRequestSucceeded ->
      baremetal.WorkRequest.LoadBalancerID o = h ->
      Provisions h r n w1 w' ->
      Completes op h r n w w'
  | in_progress n w w1 w' o :
      client.GetWorkRequest w op = (w1, (Some o, None)) ->
      baremetal.WorkRequest.State o ≠ baremetal.WorkRequestSucceeded ->
      createPending (baremetal.WorkRequest.State o) ->
      Completes op h r n w1 w' ->
      Completes op h r (S n) w w'.

End Scenarios.

(** ** Vocabulary of the lifecycle properties *)

(** [d'] has the fields of [d], but for the [state] field. *)
Definition keepsFields (d d' : schema.ResourceData) : Prop :=
  forall key, key ≠ "state" -> schema.fields d' !! key = schema.fields d !! key.

(** A call that resolves an identity: the status fetch of an identifier
    with the work request prefix, or the fetch of an identifier with the
    load balancer prefix. *)
Definition resolves (c : client.Call) : Prop :=
  match c with
  | client.GetWorkRequestCall ident =>
      HasPrefix ident LoadBalancerResourceCrud.workRequestPrefix = true
  | client.GetLoadBalancerCall ident =>
      HasPrefix ident LoadBalancerResourceCrud.loadBalancerPrefix = true
  | _ => False
  end.

Section Lifecycle.
Context {W : Type} {cl : client.BareMetalClient W} {sdk : baremetal.Constants}.

(** The resource data reads back as the load balancer [r]: the
    identifier and each of the eight fields of the schema. *)
Definition Materialized (r : baremetal.LoadBalancer.t) (d : schema.ResourceData) : Prop :=
  ResourceData.Id d = baremetal.LoadBalancer.ID r /\
  ResourceData.Get "compartment_id" d
    = schema.VString (baremetal.LoadBalancer.CompartmentID r) /\
  ResourceData.Get "display_name" d
    = schema.VString (baremetal.LoadBalancer.DisplayName r) /\
  ResourceData.Get "shape" d = schema.VString (baremetal.LoadBalancer.Shape r) /\
  ResourceData.Get "subnet_ids" d = schema.VList (baremetal.LoadBalancer.SubnetIDs r) /\
  ResourceData.Get "id" d = schema.VString (baremetal.LoadBalancer.ID r) /\
  ResourceData.Get "state" d = schema.VString (baremetal.LoadBalancer.State r) /\
  ResourceData.Get "time_created" d
    = schema.VString (baremetal.Time_String (baremetal.LoadBalancer.TimeCreated r)) /\
  ResourceData.Get "ip_addresses" d
    = schema.VList (map baremetal.IPAddress.IPAddress
                        (baremetal.LoadBalancer.IPAddresses r)).

(** A state on which the delete-wait goes to the next round. *)
Definition deletePending (state : string) : Prop :=
  (state ∈ [baremetal.ResourceWaitingForWorkRequest; baremetal.ResourceDeleting])
  /\ state ≠ baremetal.ResourceDeleted.

(** [Deletes h n w w']: from the remote state [w], the control plane
    answers [n] fetches of the load balancer [h]: the last one with a
    load balancer in state Deleted or with the not-found error, the ones
    before, without error, with a load balancer the delete-wait keeps
    waiting on. *)
Inductive Deletes (h : string) : nat -> W -> W -> Prop :=
  | deleted w w' r :
      client.GetLoadBalancer w h = (w', (Some r, None)) ->
      baremetal.LoadBalancer.State r = baremetal.ResourceDeleted ->
      Deletes h 1 w w'
  | gone w w' r :
      client.GetLoadBalancer w h = (w', (r, Some NotFound)) ->
      Deletes h 1 w w'
  | deleting n w w1 w' r0 :
      client.GetLoadBalancer w h = (w1, (Some r0, None)) ->
      deletePending (baremetal.LoadBalancer.State r0) ->
      Deletes h n w1 w' ->
      Deletes h (S n) w w'.

(** The receiver when the wait of [Create] starts: the mutation returned
    [op] and the status fetch the work request [o], both without error,
    the remote state being [w] afterwards. *)
Definition createStarted (s : LoadBalancerResourceCrud W) (op : string) (w : W)
    (o : baremetal.WorkRequest.t) : LoadBalancerResourceCrud W :=
  BuildCrud
    (schema.BuildResourceData (baremetal.WorkRequest.ID o)
       (<["state" := schema.VString (baremetal.WorkRequest.State o)]>
          (schema.fields (D s)))
       (schema.partial (D s)) (schema.timeouts (D s)))
    w (Some o) None
    (Calls s ++
     [client.CreateLoadBalancerCall
        (schema.asString (ResourceData.Get "compartment_id" (D s)))
        (schema.asString (ResourceData.Get "shape" (D s)))
        (schema.asList (ResourceData.Get "subnet_ids" (D s)))
        (schema.asString (ResourceData.Get "display_name" (D s)));
      client.GetWorkRequestCall op]).

(** The receiver when the wait of [Delete] starts. *)
Definition deleteStarted (s : LoadBalancerResourceCrud W) (op : string) (w : W)
    (o : option baremetal.WorkRequest.t) : LoadBalancerResourceCrud W :=
  BuildCrud (D s) w o (Resource s)
    (Calls s ++ [client.DeleteLoadBalancerCall (ResourceData.Id (D s));
                 client.GetWorkRequestCall op]).

End Lifecycle.

(** ** Fixtures: concrete constants, resources and receivers *)

Module Fixture.
Import schema.

(** Modelled from the spec: the SDK's constants under the names the
    specification gives to the states. *)
Definition constants : baremetal.Constants :=
  {| baremetal.ResourceWaitingForWorkRequest := "Waiting";
     baremetal.ResourceCreating := "Provisioning";
     baremetal.ResourceActive := "Active";
     baremetal.ResourceDeleting := "Deleting";
     baremetal.ResourceDeleted := "Deleted";
     baremetal.WorkRequestSucceeded := "Succeeded";
     baremetal.Time_String := fun z =>
       if Z.eqb z 0 then "1970-01-01 00:00:00 +0000 UTC" else "later" |}.

Definition opID : string := "ocid1.loadbalancerworkrequest.1".
Definition lbID : string := "ocid1.loadbalancer.1".

Definition declared : gmap string Value :=
  <["compartment_id" := VString "c1"]>
    (<["shape" := VString "100Mbps"]>
       (<["subnet_ids" := VList ["s1"; "s2"] ]>
          (<["display_name" := VString "lb1"]> ∅))).

Definition data (ident : string) (fs : gmap string Value) : ResourceData :=
  {| id := ident; fields := fs; partial := false; timeouts := fun _ => 5 |}.

Definition lb (state : string) : baremetal.LoadBalancer.t :=
  {| baremetal.LoadBalancer.ID := lbID;
     baremetal.LoadBalancer.CompartmentID := "c1";
     baremetal.LoadBalancer.DisplayName := "lb1";
     baremetal.LoadBalancer.Shape := "100Mbps";
     baremetal.LoadBalancer.SubnetIDs := ["s1"; "s2"];
     baremetal.LoadBalancer.State := state;
     baremetal.LoadBalancer.TimeCreated := 0;
     baremetal.LoadBalancer.IPAddresses :=
       [baremetal.IPAddress.Build "10.0.0.1" true;
        baremetal.IPAddress.Build "10.0.0.2" false] |}.

Definition wr (state lbid : string) : baremetal.WorkRequest.t :=
  {| baremetal.WorkRequest.ID := opID;
     baremetal.WorkRequest.LoadBalancerID := lbid;
     baremetal.WorkRequest.State := state |}.

Definition receiver' (d : ResourceData)
    (w : option baremetal.WorkRequest.t) (r : option baremetal.LoadBalancer.t)
    (script : list client.Answer) : LoadBalancerResourceCrud (list client.Answer) :=
  {| D := d; Client := script; WorkRequest := w; Resource := r; Calls := [] |}.

Definition receiver (ident : string) (fs : gmap string Value)
    (w : option baremetal.WorkRequest.t) (r : option baremetal.LoadBalancer.t)
    (script : list client.Answer) : LoadBalancerResourceCrud (list client.Answer) :=
  receiver' (data ident fs) w r script.

(** The answers of the control plane in the scenarios below. *)

Definition createScript : list client.Answer :=
  [client.Handle opID None;
   client.WorkRequestAnswer (Some (wr "Waiting" "")) None;
   client.WorkRequestAnswer (Some (wr "Succeeded" lbID)) None;
   client.LoadBalancerAnswer (Some (lb "Active")) None].

Definition slowCreateScript : list client.Answer :=
  [client.Handle opID None;
   client.WorkRequestAnswer (Some (wr "Waiting" "")) None;
   client.WorkRequestAnswer (Some (wr "Waiting" "")) None;
   client.WorkRequestAnswer (Some (wr "Succeeded" lbID)) None;
   client.LoadBalancerAnswer (Some (lb "Provisioning")) None;
   client.LoadBalancerAnswer (Some (lb "Active")) None].

Definition deleteScript : list client.Answer :=
  [client.Handle "ocid1.loadbalancerworkrequest.2" None;
   client.WorkRequestAnswer (Some (wr "Waiting" "")) None;
   client.LoadBalancerAnswer (Some (lb "Deleting")) None;
   client.LoadBalancerAnswer (Some (lb "Deleting")) None;
   client.LoadBalancerAnswer (Some (lb "Deleted")) None].

Definition goneScript : list client.Answer :=
  [client.Handle "ocid1.loadbalancerworkrequest.2" None;
   client.WorkRequestAnswer (Some (wr "Waiting" "")) None;
   client.LoadBalancerAnswer (Some (lb "Deleting")) None;
   client.LoadBalancerAnswer None (Some NotFound)].

Definition handoffThenFailure : list client.Answer :=
  [client.Handle "ocid1.loadbalancerworkrequest.2" None;
   client.WorkRequestAnswer (Some (wr "Waiting" "")) None;
   client.WorkRequestAnswer (Some (wr "Succeeded" lbID)) None;
   client.LoadBalancerAnswer None (Some (ServiceError "unavailable"))].

Definition updateScript : list client.Answer :=
  [client.Handle opID None;
   client.WorkRequestAnswer (Some (wr "Accepted" "")) None].

Definition statusFetchFails : list client.Answer :=
  [client.WorkRequestAnswer None (Some (ServiceError "unavailable"))].

Definition active : gmap string Value := <["state" := VString "Active"]> declared.

Definition failedCreateScript : list client.Answer :=
  [client.Handle opID None;
   client.WorkRequestAnswer (Some (wr "Waiting" "")) None;
   client.WorkRequestAnswer (Some (wr "Waiting" "")) None;
   client.WorkRequestAnswer (Some (wr "Failed" "")) None].

Definition vanishedCreateScript : list client.Answer :=
  [client.Handle opID None;
   client.WorkRequestAnswer (Some (wr "Waiting" "")) None;
   client.WorkRequestAnswer (Some (wr "Succeeded" lbID)) None;
   client.LoadBalancerAnswer None (Some NotFound)].

Definition refused : list client.Answer :=
  [client.Handle "" (Some (ServiceError "refused"))].

Definition untracked : list client.Answer :=
  [client.Handle opID None;
   client.WorkRequestAnswer None (Some (ServiceError "unavailable"))].

End Fixture.

(** * Properties *)

Section Properties.
Context {W : Type} {cl : client.BareMetalClient W} {sdk : baremetal.Constants}.
Import schema LoadBalancerResourceCrud.

Local Abbreviation crud := (LoadBalancerResourceCrud W).
Local Open Scope list_scope.

(** ** Running a computation *)

Lemma bind_val {S A B : Type} (c : M S A) (k : A -> M S B) s a s' :
  c s = (Val a, s') -> bind c k s = k a s'.
Proof. intros H. unfold bind. now rewrite H. Qed.

Lemma bind_panic {S A B : Type} (c : M S A) (k : A -> M S B) s p s' :
  c s = (Panic p, s') -> bind c k s = (Panic p, s').
Proof. intros H. unfold bind. now rewrite H. Qed.

(** Every key the resource writes is declared with the type it writes. *)
Lemma D_Set_typed key v (s : crud) :
  LoadBalancerResource_Schema key = Some (typeOf v) ->
  D_Set key v s =
    (Val None,
     BuildCrud (BuildResourceData (id (D s)) (<[key := v]> (fields (D s)))
                                  (partial (D s)) (timeouts (D s)))
               (Client s) (WorkRequest s) (Resource s) (Calls s)).
Proof.
  intros H. unfold D_Set, ResourceData.Set_. rewrite H.
  now destruct v.
Qed.

Lemma hasResourceID_Some (s : crud) r :
  Resource s = Some r -> baremetal.LoadBalancer.ID r ≠ "" -> hasResourceID s = Some r.
Proof.
  intros H Hne. unfold hasResourceID. rewrite H.
  now rewrite bool_decide_eq_false_2.
Qed.

Lemma hasResourceID_None (s : crud) :
  (forall r, Resource s = Some r -> baremetal.LoadBalancer.ID r = "") ->
  hasResourceID s = None.
Proof.
  intros H. unfold hasResourceID. destruct (Resource s) as [r|]; [|done].
  now rewrite bool_decide_eq_true_2 by auto.
Qed.

(** C6. The composite state is read without changing the receiver, and
    it is: the state of the load balancer whenever one is present;
    otherwise the state of the work request whenever one is present;
    otherwise the empty string. *)
Theorem State_derivation (s : crud) :
  (forall r, Resource s = Some r ->
     State s = (Val (baremetal.LoadBalancer.State r), s)) /\
  (forall wr, Resource s = None -> WorkRequest s = Some wr ->
     State s = (Val (baremetal.WorkRequest.State wr), s)) /\
  (Resource s = None -> WorkRequest s = None -> State s = (Val "", s)).
Proof.
  unfold State, this, bind, gets, ret.
  repeat split.
  - intros r ->. reflexivity.
  - intros wr -> ->. reflexivity.
  - intros -> ->. reflexivity.
Qed.

(** C10. [ID] is read without changing the receiver.  It is the handle
    of the load balancer whenever one with a non-empty handle is present.
    Otherwise, when a work request is tracked, it is the load balancer
    handle the work request carries if its state is Succeeded, and the
    handle of the work request itself for any other state.  With neither
    present it is the empty string. *)
Theorem ID_resolution (s : crud) :
  (forall r, Resource s = Some r -> baremetal.LoadBalancer.ID r ≠ "" ->
     ID s = (Val (baremetal.LoadBalancer.ID r), s)) /\
  ((forall r, Resource s = Some r -> baremetal.LoadBalancer.ID r = "") ->
     (forall wr, WorkRequest s = Some wr ->
        baremetal.WorkRequest.State wr = baremetal.WorkRequestSucceeded ->
        ID s = (Val (baremetal.WorkRequest.LoadBalancerID wr), s)) /\
     (forall wr, WorkRequest s = Some wr ->
        baremetal.WorkRequest.State wr ≠ baremetal.WorkRequestSucceeded ->
        ID s = (Val (baremetal.WorkRequest.ID wr), s)) /\
     (WorkRequest s = None -> ID s = (Val "", s))).
Proof.
  unfold ID, this, bind, gets, ret.
  split.
  - intros r Hr Hne. now rewrite (hasResourceID_Some s r).
  - intros Hnone. rewrite (hasResourceID_None s Hnone).
    repeat split.
    + intros wr -> Hst. now rewrite bool_decide_eq_true_2.
    + intros wr -> Hst. now rewrite bool_decide_eq_false_2.
    + intros ->. reflexivity.
Qed.

(** Reading back what a chain of writes stored. *)
Lemma Get_stored key v (d : ResourceData) :
  LoadBalancerResource_Schema key = Some (typeOf v) ->
  fields d !! key = Some v ->
  ResourceData.Get key d = v.
Proof.
  intros Hk Hv. unfold ResourceData.Get. rewrite Hk, Hv.
  now destruct v.
Qed.

Ltac reduce := cbn [D Client WorkRequest Resource Calls id fields partial timeouts
                    ResourceData.Id ResourceData.SetId].
Ltac reduce_in H := cbn [D Client WorkRequest Resource Calls id fields partial timeouts
                         ResourceData.Id ResourceData.SetId] in H.

Lemma SetData_skips (s : crud) :
  (forall r, Resource s = Some r -> baremetal.LoadBalancer.ID r = "") ->
  SetData s = (Val tt, s).
Proof.
  intros Hnone. unfold SetData, this, bind, gets.
  now rewrite (hasResourceID_None s Hnone).
Qed.

Lemma SetData_writes (s : crud) r :
  Resource s = Some r -> baremetal.LoadBalancer.ID r ≠ "" ->
  SetData s =
    (Val tt,
     BuildCrud (BuildResourceData (baremetal.LoadBalancer.ID r)
                                  (written r (fields (D s)))
                                  (partial (D s)) (timeouts (D s)))
               (Client s) (WorkRequest s) (Resource s) (Calls s)).
Proof.
  intros Hr Hne. unfold SetData, this, bind, gets.
  rewrite (hasResourceID_Some s r Hr Hne).
  unfold D_SetId, withD, modify. reduce.
  repeat (rewrite D_Set_typed by reflexivity; reduce).
  reflexivity.
Qed.

(** C7. [SetData] leaves the receiver, and so every external field, as it
    is when the cached load balancer is absent or carries an empty
    handle.  When the load balancer carries a handle, [SetData] writes
    the identifier and the eight fields, so that reading each of them
    back gives the value of the load balancer: the lists in their order,
    the creation time in its textual form, and the addresses taken in
    order from the address records. *)
Theorem SetData_materializes (s : crud) :
  ((forall r, Resource s = Some r -> baremetal.LoadBalancer.ID r = "") ->
     SetData s = (Val tt, s)) /\
  (forall r, Resource s = Some r -> baremetal.LoadBalancer.ID r ≠ "" ->
     exists d',
       SetData s = (Val tt, BuildCrud d' (Client s) (WorkRequest s) (Resource s) (Calls s)) /\
       ResourceData.Id d' = baremetal.LoadBalancer.ID r /\
       ResourceData.Get "compartment_id" d' = VString (baremetal.LoadBalancer.CompartmentID r) /\
       ResourceData.Get "display_name" d' = VString (baremetal.LoadBalancer.DisplayName r) /\
       ResourceData.Get "shape" d' = VString (baremetal.LoadBalancer.Shape r) /\
       ResourceData.Get "subnet_ids" d' = VList (baremetal.LoadBalancer.SubnetIDs r) /\
       ResourceData.Get "id" d' = VString (baremetal.LoadBalancer.ID r) /\
       ResourceData.Get "state" d' = VString (baremetal.LoadBalancer.State r) /\
       ResourceData.Get "time_created" d' =
         VString (baremetal.Time_String (baremetal.LoadBalancer.TimeCreated r)) /\
       ResourceData.Get "ip_addresses" d' =
         VList (map baremetal.IPAddress.IPAddress (baremetal.LoadBalancer.IPAddresses r))).
Proof.
  split.
  - apply SetData_skips.
  - intros r Hr Hne. eexists. split; [exact (SetData_writes s r Hr Hne)|].
    split; [reflexivity|].
    repeat split;
      (apply Get_stored; [reflexivity | unfold written; reduce; now simplify_map_eq]).
Qed.

(** ** Prefixes *)

Lemma prefix_split p a q b q' s :
  String.prefix (p +:+ String a q) s = true ->
  String.prefix (p +:+ String b q') s = true ->
  a = b.
Proof.
  revert s. induction p as [|c p IH]; intros s.
  - change ("" +:+ String a q) with (String a q).
    change ("" +:+ String b q') with (String b q').
    destruct s as [|x s]; cbn; [discriminate|].
    destruct (Ascii.ascii_dec a x), (Ascii.ascii_dec b x); intros; congruence.
  - change (String c p +:+ String a q) with (String c (p +:+ String a q)).
    change (String c p +:+ String b q') with (String c (p +:+ String b q')).
    destruct s as [|x s]; cbn; [discriminate|].
    destruct (Ascii.ascii_dec c x); [apply IH | discriminate].
Qed.

(** No identifier names both a work request and a load balancer. *)
Lemma prefixes_disjoint ident :
  HasPrefix ident loadBalancerPrefix = true ->
  HasPrefix ident workRequestPrefix = false.
Proof.
  unfold HasPrefix. intros Hlb.
  destruct (String.prefix workRequestPrefix ident) eqn:Hwr; [|reflexivity].
  change loadBalancerPrefix with ("ocid1.loadbalancer" +:+ String "."%char "") in Hlb.
  change workRequestPrefix with ("ocid1.loadbalancer" +:+ String "w"%char "orkrequest.") in Hwr.
  pose proof (prefix_split _ _ _ _ _ _ Hlb Hwr) as Habs. discriminate Habs.
Qed.

Lemma HasPrefix_nonempty ident a p :
  HasPrefix ident (String a p) = true -> ident ≠ "".
Proof. intros H ->. discriminate H. Qed.

(** ** The cases of [Get] *)

Lemma Get_empty (s : crud) :
  ResourceData.Id (D s) = "" -> Get s = (Panic EmptyID, s).
Proof.
  intros H. unfold Get, bind, gets. rewrite H. reflexivity.
Qed.

Lemma fetchLoadBalancer_malformed ident (s : crud) :
  HasPrefix ident loadBalancerPrefix = false ->
  fetchLoadBalancer ident s = (Panic (UnexpectedPrefix ident), s).
Proof. intros H. unfold fetchLoadBalancer. now rewrite H. Qed.

Lemma fetchLoadBalancer_fetches ident (s : crud) w r e :
  HasPrefix ident loadBalancerPrefix = true ->
  client.GetLoadBalancer (Client s) ident = (w, (r, e)) ->
  fetchLoadBalancer ident s =
    (Val e, BuildCrud (D s) w (WorkRequest s) r
                      (Calls s ++ [client.GetLoadBalancerCall ident])).
Proof.
  intros Hp Hc. unfold fetchLoadBalancer. rewrite Hp. cbn [negb].
  rewrite bool_decide_eq_false_2 by (eapply HasPrefix_nonempty; exact Hp).
  unfold bind, Client_GetLoadBalancer, call. rewrite Hc. reflexivity.
Qed.

Lemma Get_malformed (s : crud) :
  ResourceData.Id (D s) ≠ "" ->
  HasPrefix (ResourceData.Id (D s)) workRequestPrefix = false ->
  HasPrefix (ResourceData.Id (D s)) loadBalancerPrefix = false ->
  Get s = (Panic (UnexpectedPrefix (ResourceData.Id (D s))), s).
Proof.
  intros Hne Hwr Hlb. unfold Get, bind, gets.
  rewrite bool_decide_eq_false_2 by exact Hne. rewrite Hwr.
  now apply fetchLoadBalancer_malformed.
Qed.

Lemma Get_resource (s : crud) w r e :
  HasPrefix (ResourceData.Id (D s)) loadBalancerPrefix = true ->
  client.GetLoadBalancer (Client s) (ResourceData.Id (D s)) = (w, (r, e)) ->
  Get s =
    (Val e, BuildCrud (D s) w (WorkRequest s) r
                      (Calls s ++ [client.GetLoadBalancerCall (ResourceData.Id (D s))])).
Proof.
  intros Hlb Hc. unfold Get, bind, gets.
  rewrite bool_decide_eq_false_2 by (eapply HasPrefix_nonempty; exact Hlb).
  rewrite (prefixes_disjoint _ Hlb).
  now apply fetchLoadBalancer_fetches.
Qed.

(** The receiver once the work request named by the identifier has been
    refreshed and its state written to the [state] field. *)
Lemma Get_refreshes (s : crud) w wr e :
  HasPrefix (ResourceData.Id (D s)) workRequestPrefix = true ->
  client.GetWorkRequest (Client s) (ResourceData.Id (D s)) = (w, (wr, e)) ->
  Get s =
    match wr with
    | None =>
        (Panic NilPointerDereference,
         BuildCrud (D s) w None (Resource s)
                   (Calls s ++ [client.GetWorkRequestCall (ResourceData.Id (D s))]))
    | Some o =>
        let fs := <["state" := VString (baremetal.WorkRequest.State o)]> (fields (D s)) in
        let calls := Calls s ++ [client.GetWorkRequestCall (ResourceData.Id (D s))] in
        if bool_decide (baremetal.WorkRequest.State o = baremetal.WorkRequestSucceeded)
        then
          if bool_decide (baremetal.WorkRequest.LoadBalancerID o = "")
          then
            (Panic EmptyLoadBalancerID,
             BuildCrud (BuildResourceData (id (D s)) fs (partial (D s)) (timeouts (D s)))
                       w (Some o) (Resource s) calls)
          else
            fetchLoadBalancer (baremetal.WorkRequest.LoadBalancerID o)
              (BuildCrud (BuildResourceData (baremetal.WorkRequest.LoadBalancerID o) fs
                                            (partial (D s)) (timeouts (D s)))
                         w None (Resource s) calls)
        else
          (Val e,
           BuildCrud (BuildResourceData (id (D s)) fs (partial (D s)) (timeouts (D s)))
                     w (Some o) (Resource s) calls)
    end.
Proof.
  intros Hwr Hc. unfold Get, bind, gets.
  rewrite bool_decide_eq_false_2 by (eapply HasPrefix_nonempty; exact Hwr).
  rewrite Hwr. unfold Client_GetWorkRequest, call. rewrite Hc.
  unfold setWorkRequest, modify. reduce.
  destruct wr as [o|]; [|reflexivity].
  rewrite D_Set_typed by reflexivity. reduce.
  destruct (bool_decide (baremetal.WorkRequest.State o = baremetal.WorkRequestSucceeded));
    [|reflexivity].
  destruct (bool_decide (baremetal.WorkRequest.LoadBalancerID o = ""));
    reflexivity.
Qed.

(** ** Identity resolution *)

(** C4. [Get] on an empty identity, and on an identity that carries
    neither the work request prefix nor the load balancer prefix, stops
    with the panic the specification names InvalidState and leaves the
    receiver as it was: no call reaches the control plane.  When the
    identity names a work request that has Succeeded with a non-empty
    handle lacking the load balancer prefix, [Get] stops the same way
    after the status fetch, the only call it made. *)
Theorem Get_rejects_invalid_identity (s : crud) :
  (ResourceData.Id (D s) = "" ->
     exists p, Get s = (Panic p, s) /\ InvalidState p = true) /\
  (HasPrefix (ResourceData.Id (D s)) workRequestPrefix = false ->
   HasPrefix (ResourceData.Id (D s)) loadBalancerPrefix = false ->
     exists p, Get s = (Panic p, s) /\ InvalidState p = true) /\
  (forall w o e,
     HasPrefix (ResourceData.Id (D s)) workRequestPrefix = true ->
     client.GetWorkRequest (Client s) (ResourceData.Id (D s)) = (w, (Some o, e)) ->
     baremetal.WorkRequest.State o = baremetal.WorkRequestSucceeded ->
     baremetal.WorkRequest.LoadBalancerID o ≠ "" ->
     HasPrefix (baremetal.WorkRequest.LoadBalancerID o) loadBalancerPrefix = false ->
     exists p s',
       Get s = (Panic p, s') /\ InvalidState p = true /\
       Calls s' = Calls s ++ [client.GetWorkRequestCall (ResourceData.Id (D s))]).
Proof.
  repeat split.
  - intros H. exists EmptyID. split; [now apply Get_empty | reflexivity].
  - intros Hwr Hlb.
    destruct (decide (ResourceData.Id (D s) = "")) as [Heq|Hne].
    + exists EmptyID. split; [now apply Get_empty | reflexivity].
    + eexists. split; [now apply Get_malformed | reflexivity].
  - intros w o e Hwr Hc Hst Hh Hlb.
    rewrite (Get_refreshes s w (Some o) e Hwr Hc). cbv beta iota zeta.
    rewrite bool_decide_eq_true_2 by exact Hst.
    rewrite bool_decide_eq_false_2 by exact Hh.
    rewrite fetchLoadBalancer_malformed by exact Hlb.
    eexists; eexists. split; [reflexivity|]. split; reflexivity.
Qed.

(** Resolutions on a load balancer identity only fetch that load balancer. *)
Lemma resolutions_fetch_only n : forall s : crud,
  HasPrefix (ResourceData.Id (D s)) loadBalancerPrefix = true ->
  exists later,
    Calls (snd (resolutions n s)) = Calls s ++ later /\
    Forall (eq (client.GetLoadBalancerCall (ResourceData.Id (D s)))) later.
Proof.
  induction n as [|n IH]; intros s Hlb.
  - exists []. split; [now rewrite app_nil_r | constructor].
  - destruct (client.GetLoadBalancer (Client s) (ResourceData.Id (D s)))
      as [w [r e]] eqn:Hc.
    cbn [resolutions].
    rewrite (bind_val _ _ _ _ _ (Get_resource s w r e Hlb Hc)).
    destruct (IH (BuildCrud (D s) w (WorkRequest s) r
                            (Calls s ++ [client.GetLoadBalancerCall (ResourceData.Id (D s))])))
      as (later & Hcalls & Hall); [exact Hlb|].
    exists (client.GetLoadBalancerCall (ResourceData.Id (D s)) :: later).
    split.
    + rewrite Hcalls. reduce. now rewrite <- app_assoc.
    + constructor; [reflexivity | exact Hall].
Qed.

(** C2. When [Get] sees the work request its identity names as Succeeded
    with a non-empty load balancer handle [h], it leaves the receiver
    with [h] as external identifier and with no cached work request.
    In any run of resolutions that starts with this one, the status
    fetch of this first resolution is the only call that names the work
    request: every later call fetches the load balancer [h]. *)
Theorem handoff_is_one_way (s : crud) w o e h :
  HasPrefix (ResourceData.Id (D s)) workRequestPrefix = true ->
  client.GetWorkRequest (Client s) (ResourceData.Id (D s)) = (w, (Some o, e)) ->
  baremetal.WorkRequest.State o = baremetal.WorkRequestSucceeded ->
  baremetal.WorkRequest.LoadBalancerID o = h ->
  h ≠ "" ->
  (ResourceData.Id (D (snd (Get s))) = h /\ WorkRequest (snd (Get s)) = None) /\
  (forall n, exists later,
     Calls (snd (resolutions (S n) s)) =
       Calls s ++ client.GetWorkRequestCall (ResourceData.Id (D s)) :: later /\
     Forall (eq (client.GetLoadBalancerCall h)) later).
Proof.
  intros Hwr Hc Hst Hh Hne. subst h.
  pose proof (Get_refreshes s w (Some o) e Hwr Hc) as HGet.
  cbv beta iota zeta in HGet.
  rewrite bool_decide_eq_true_2 in HGet by exact Hst.
  rewrite bool_decide_eq_false_2 in HGet by exact Hne.
  destruct (HasPrefix (baremetal.WorkRequest.LoadBalancerID o) loadBalancerPrefix) eqn:Hlb.
  - destruct (client.GetLoadBalancer w (baremetal.WorkRequest.LoadBalancerID o))
      as [w' [r e']] eqn:Hf.
    rewrite (fetchLoadBalancer_fetches _ _ w' r e') in HGet
      by (try exact Hlb; exact Hf).
    reduce_in HGet.
    split; [rewrite HGet; split; reflexivity|].
    intros n. cbn [resolutions]. rewrite (bind_val _ _ _ _ _ HGet).
    match goal with |- context [resolutions n ?s1] =>
      destruct (resolutions_fetch_only n s1) as (later & Hcalls & Hall); [exact Hlb|]
    end.
    exists (client.GetLoadBalancerCall (baremetal.WorkRequest.LoadBalancerID o) :: later).
    split.
    + rewrite Hcalls. reduce. now rewrite <- !app_assoc.
    + constructor; [reflexivity | exact Hall].
  - rewrite fetchLoadBalancer_malformed in HGet by exact Hlb.
    split; [rewrite HGet; split; reflexivity|].
    intros n. cbn [resolutions]. rewrite (bind_panic _ _ _ _ _ HGet).
    exists []. split; [reflexivity | constructor].
Qed.

(** C9. [Read] on an identity that names a work request whose status is
    not Succeeded, on a receiver holding no load balancer with a handle:
    the status fetch is the only call made, so no load balancer is
    fetched; the [state] field becomes the status of the work request and
    every other field keeps its value; the identifier is kept unless the
    status fetch itself reported not-found, and the error of the status
    fetch, if it is another one, is what [Read] returns. *)
Theorem Read_of_pending_operation (s : crud) w o e :
  (forall r, Resource s = Some r -> baremetal.LoadBalancer.ID r = "") ->
  HasPrefix (ResourceData.Id (D s)) workRequestPrefix = true ->
  client.GetWorkRequest (Client s) (ResourceData.Id (D s)) = (w, (Some o, e)) ->
  baremetal.WorkRequest.State o ≠ baremetal.WorkRequestSucceeded ->
  exists res s',
    Read s = (Val res, s') /\
    Calls s' = Calls s ++ [client.GetWorkRequestCall (ResourceData.Id (D s))] /\
    fields (D s') !! "state" = Some (VString (baremetal.WorkRequest.State o)) /\
    (forall key, key ≠ "state" -> fields (D s') !! key = fields (D s) !! key) /\
    (e ≠ Some NotFound -> res = e /\ ResourceData.Id (D s') = ResourceData.Id (D s)).
Proof.
  intros Hnone Hwr Hc Hst.
  pose proof (Get_refreshes s w (Some o) e Hwr Hc) as HGet.
  cbv beta iota zeta in HGet.
  rewrite bool_decide_eq_false_2 in HGet by exact Hst.
  unfold Read. rewrite (bind_val _ _ _ _ _ HGet).
  assert (Hfields : forall fs : gmap string Value,
            <["state" := VString (baremetal.WorkRequest.State o)]> fs !! "state"
            = Some (VString (baremetal.WorkRequest.State o)))
    by (intros; apply lookup_insert_eq).
  assert (Hframe : forall (fs : gmap string Value) key, key ≠ "state" ->
            <["state" := VString (baremetal.WorkRequest.State o)]> fs !! key = fs !! key)
    by (intros; now apply lookup_insert_ne).
  destruct e as [err|].
  - destruct err; cbn [crud.FilterMissingResourceError];
      eexists; eexists; (split; [reflexivity|]); reduce;
      repeat split; auto; congruence.
  - cbv beta iota.
    erewrite bind_val by (apply SetData_skips; reduce; exact Hnone). unfold ret.
    eexists; eexists; split; [reflexivity|]; reduce.
    repeat split; auto.
Qed.

(** ** The poller and the refresh closure *)

Lemma poll_target {St : Type} (conf : resource.StateChangeConf St) n s s' state :
  resource.Refresh conf s = (Val (state, None), s') ->
  state ∈ resource.Target conf ->
  resource.poll (S n) conf s = (Val None, s').
Proof.
  intros Hr Hin. cbn [resource.poll]. rewrite (bind_val _ _ _ _ _ Hr).
  now rewrite bool_decide_eq_true_2.
Qed.

Lemma poll_pending {St : Type} (conf : resource.StateChangeConf St) n s s' state :
  resource.Refresh conf s = (Val (state, None), s') ->
  state ∉ resource.Target conf ->
  state ∈ resource.Pending conf ->
  resource.poll (S n) conf s = resource.poll n conf s'.
Proof.
  intros Hr Hout Hin. cbn [resource.poll]. rewrite (bind_val _ _ _ _ _ Hr).
  rewrite bool_decide_eq_false_2 by exact Hout.
  now rewrite bool_decide_eq_true_2.
Qed.

(** An error of the refresh ends the wait at once, with that error. *)
Lemma poll_refresh_error {St : Type} (conf : resource.StateChangeConf St) n s s' state e :
  resource.Refresh conf s = (Val (state, Some e), s') ->
  resource.poll (S n) conf s = (Val (Some e), s').
Proof.
  intros Hr. cbn [resource.poll]. now rewrite (bind_val _ _ _ _ _ Hr).
Qed.

Lemma poll_refresh_panic {St : Type} (conf : resource.StateChangeConf St) n s s' p :
  resource.Refresh conf s = (Panic p, s') ->
  resource.poll (S n) conf s = (Panic p, s').
Proof.
  intros Hr. cbn [resource.poll]. now rewrite (bind_panic _ _ _ _ _ Hr).
Qed.

Lemma State_of_resource (s : crud) r :
  Resource s = Some r -> State s = (Val (baremetal.LoadBalancer.State r), s).
Proof. intros H. unfold State, this, bind, gets. now rewrite H. Qed.

Lemma State_of_work_request (s : crud) o :
  Resource s = None -> WorkRequest s = Some o ->
  State s = (Val (baremetal.WorkRequest.State o), s).
Proof. intros H1 H2. unfold State, this, bind, gets. now rewrite H1, H2. Qed.

Lemma State_pure (s : crud) : exists state, State s = (Val state, s).
Proof.
  unfold State, this, bind, gets, ret.
  destruct (Resource s); [eauto|]. destruct (WorkRequest s); eauto.
Qed.

Lemma refresh_state (s s' : crud) state :
  Get s = (Val None, s') -> State s' = (Val state, s') ->
  refresh s = (Val (state, None), s').
Proof.
  intros HG HS. unfold refresh. rewrite (bind_val _ _ _ _ _ HG).
  now rewrite (bind_val _ _ _ _ _ HS).
Qed.

Lemma refresh_error (s s' : crud) e :
  Get s = (Val (Some e), s') -> refresh s = (Val ("", Some e), s').
Proof. intros HG. unfold refresh. now rewrite (bind_val _ _ _ _ _ HG). Qed.

Lemma refresh_panic (s s' : crud) p :
  Get s = (Panic p, s') -> refresh s = (Panic p, s').
Proof. intros HG. unfold refresh. now rewrite (bind_panic _ _ _ _ _ HG). Qed.

Lemma createPending_pending d state :
  createPending state ->
  (state ∉ resource.Target (createdConf d)) /\
  (state ∈ resource.Pending (createdConf d)).
Proof.
  intros [Hin Hne]. split; [|exact Hin].
  cbn [createdConf resource.Target]. now rewrite list_elem_of_singleton.
Qed.

(** What [Get] returns as an error ends the wait with that error, in the
    round it occurs. *)
Lemma poll_Get_error (conf : resource.StateChangeConf crud) n (s s' : crud) e :
  resource.Refresh conf = refresh ->
  Get s = (Val (Some e), s') ->
  resource.poll (S n) conf s = (Val (Some e), s').
Proof.
  intros Hconf HG. eapply poll_refresh_error.
  rewrite Hconf. now apply refresh_error.
Qed.

(** A status fetch that returns no work request does not come back as an
    error: the dereference of the missing work request abandons [Get],
    and with it the wait and its caller. *)
Lemma WaitForCreatedState_nil_work_request (s : crud) w e :
  HasPrefix (ResourceData.Id (D s)) workRequestPrefix = true ->
  client.GetWorkRequest (Client s) (ResourceData.Id (D s)) = (w, (None, e)) ->
  0 < ResourceData.Timeout TimeoutCreate (D s) ->
  fst (Get s) = Panic NilPointerDereference /\
  fst (WaitForCreatedState s) = Panic NilPointerDereference.
Proof.
  intros Hwr Hc Hle.
  pose proof (Get_refreshes s w None e Hwr Hc) as HGet. cbv beta iota in HGet.
  split; [now rewrite HGet|].
  unfold WaitForCreatedState, bind at 1, gets, resource.WaitForState.
  cbn [createdConf resource.Timeout].
  destruct (ResourceData.Timeout TimeoutCreate (D s)) as [|k]; [lia|].
  unfold bind at 1.
  erewrite poll_refresh_panic by (apply refresh_panic; exact HGet).
  reflexivity.
Qed.

(** ** Create *)

Lemma poll_Provisions h r n w w' :
  Provisions h r n w w' ->
  HasPrefix h loadBalancerPrefix = true ->
  baremetal.LoadBalancer.State r = baremetal.ResourceActive ->
  forall (s : crud) d rounds,
    Client s = w -> ResourceData.Id (D s) = h -> n <= rounds ->
    exists calls,
      resource.poll rounds (createdConf d) s =
        (Val None, BuildCrud (D s) w' (WorkRequest s) (Some r) calls).
Proof.
  intros HP Hlb Hact.
  induction HP as [w w' Hc | n w w1 w' r0 Hc Hpend HP IH];
    intros s d rounds Hw Hid Hle; subst w h;
    (destruct rounds as [|k]; [lia|]).
  - eexists. eapply poll_target.
    + apply refresh_state; [now apply (Get_resource s w' (Some r) None)|].
      now apply State_of_resource.
    + rewrite Hact. cbn [createdConf resource.Target]. now apply list_elem_of_singleton.
  - destruct (createPending_pending d _ Hpend) as [Hout Hin].
    erewrite poll_pending; [| | exact Hout | exact Hin].
    2:{ apply refresh_state; [now apply (Get_resource s w1 (Some r0) None)|].
        now apply State_of_resource. }
    match goal with |- context [resource.poll k _ ?s1] =>
      destruct (IH s1 d k) as (calls & Hpoll); [reflexivity | reflexivity | lia |]
    end.
    exists calls. exact Hpoll.
Qed.

Lemma poll_Completes op h r n w w' :
  Completes op h r n w w' ->
  HasPrefix op workRequestPrefix = true ->
  HasPrefix h loadBalancerPrefix = true ->
  baremetal.LoadBalancer.State r = baremetal.ResourceActive ->
  forall (s : crud) d rounds,
    Client s = w -> ResourceData.Id (D s) = op -> Resource s = None -> n <= rounds ->
    exists fs calls,
      resource.poll rounds (createdConf d) s =
        (Val None,
         BuildCrud (BuildResourceData h fs (partial (D s)) (timeouts (D s)))
                   w' None (Some r) calls).
Proof.
  intros HC Hwr Hlb Hact.
  induction HC as [n w w1 w' o Hc Hst Hh HP | n w w1 w' o Hc Hst Hpend HC IH];
    intros s d rounds Hw Hid Hres Hle; subst w op.
  - pose proof (Get_refreshes s w1 (Some o) None Hwr Hc) as HGet.
    cbv beta iota zeta in HGet.
    rewrite bool_decide_eq_true_2 in HGet by exact Hst.
    rewrite Hh in HGet.
    rewrite bool_decide_eq_false_2 in HGet
      by (eapply HasPrefix_nonempty; exact Hlb).
    inversion HP as [wa wb Hf | n' wa wb wc r0 Hf Hpend HP']; subst;
      (destruct rounds as [|k]; [lia|]).
    + rewrite (fetchLoadBalancer_fetches _ _ w' (Some r) None) in HGet
        by (try exact Hlb; exact Hf).
      reduce_in HGet.
      eexists; eexists. eapply poll_target.
      * apply refresh_state; [exact HGet | now apply State_of_resource].
      * rewrite Hact. cbn [createdConf resource.Target]. now apply list_elem_of_singleton.
    + rewrite (fetchLoadBalancer_fetches _ _ wb (Some r0) None) in HGet
        by (try exact Hlb; exact Hf).
      reduce_in HGet.
      destruct (createPending_pending d _ Hpend) as [Hout Hin].
      erewrite poll_pending; [| | exact Hout | exact Hin].
      2:{ apply refresh_state; [exact HGet | now apply State_of_resource]. }
      match goal with |- context [resource.poll k _ ?s1] =>
        destruct (poll_Provisions _ _ _ _ _ HP' Hlb Hact s1 d k)
          as (calls & Hpoll); [reflexivity | reflexivity | lia |]
      end.
      eexists; eexists. exact Hpoll.
  - pose proof (Get_refreshes s w1 (Some o) None Hwr Hc) as HGet.
    cbv beta iota zeta in HGet.
    rewrite bool_decide_eq_false_2 in HGet by exact Hst.
    destruct rounds as [|k]; [lia|].
    destruct (createPending_pending d _ Hpend) as [Hout Hin].
    erewrite poll_pending; [| | exact Hout | exact Hin].
    2:{ apply refresh_state; [exact HGet|].
        now apply State_of_work_request. }
    match goal with |- context [resource.poll k _ ?s1] =>
      destruct (IH s1 d k) as (fs & calls & Hpoll);
        [reflexivity | reflexivity | exact Hres | lia |]
    end.
    eexists; eexists. exact Hpoll.
Qed.

Lemma ID_of_resource (s : crud) r :
  Resource s = Some r -> baremetal.LoadBalancer.ID r ≠ "" ->
  ID s = (Val (baremetal.LoadBalancer.ID r), s).
Proof.
  intros Hr Hne. unfold ID, this, bind, gets.
  now rewrite (hasResourceID_Some s r Hr Hne).
Qed.

Lemma ID_of_work_request (s : crud) o :
  Resource s = None -> WorkRequest s = Some o ->
  baremetal.WorkRequest.State o ≠ baremetal.WorkRequestSucceeded ->
  ID s = (Val (baremetal.WorkRequest.ID o), s).
Proof.
  intros Hr Ho Hst. unfold ID, this, bind, gets, hasResourceID.
  rewrite Hr, Ho. now rewrite bool_decide_eq_false_2.
Qed.

Lemma written_state (r : baremetal.LoadBalancer.t) (fs : gmap string Value) :
  written r fs !! "state" = Some (VString (baremetal.LoadBalancer.State r)).
Proof. unfold written. now simplify_map_eq. Qed.

(** [Create] up to the wait: the mutation, the first status fetch, the
    provisional [state] field and the work request as identifier. *)
Lemma Create_until_wait (s : crud) op w1 w2 o :
  Resource s = None ->
  client.CreateLoadBalancer (Client s)
    (asString (ResourceData.Get "compartment_id" (D s)))
    (asString (ResourceData.Get "shape" (D s)))
    (asList (ResourceData.Get "subnet_ids" (D s)))
    (asString (ResourceData.Get "display_name" (D s))) = (w1, (op, None)) ->
  client.GetWorkRequest w1 op = (w2, (Some o, None)) ->
  baremetal.WorkRequest.State o ≠ baremetal.WorkRequestSucceeded ->
  Create s =
    (check WaitForCreatedState ;;
     ident <- ID ;; D_SetId ident ;; SetData ;; ret None)%go
    (BuildCrud
       (BuildResourceData (baremetal.WorkRequest.ID o)
          (<["state" := VString (baremetal.WorkRequest.State o)]> (fields (D s)))
          (partial (D s)) (timeouts (D s)))
       w2 (Some o) None
       (Calls s ++
        [client.CreateLoadBalancerCall
           (asString (ResourceData.Get "compartment_id" (D s)))
           (asString (ResourceData.Get "shape" (D s)))
           (asList (ResourceData.Get "subnet_ids" (D s)))
           (asString (ResourceData.Get "display_name" (D s)));
         client.GetWorkRequestCall op])).
Proof.
  intros Hres Hcreate Hwr Hst. unfold Create.
  unfold bind at 1, gets at 1. unfold bind at 1, gets at 1.
  unfold bind at 1, gets at 1. unfold bind at 1, gets at 1.
  unfold bind at 1, Client_CreateLoadBalancer, call. rewrite Hcreate.
  unfold bind at 1, ret at 1.
  unfold bind at 1, Client_GetWorkRequest, call. reduce. rewrite Hwr.
  unfold bind at 1, ret at 1.
  unfold bind at 1, setWorkRequest, modify. reduce.
  erewrite bind_val by (now apply State_of_work_request).
  unfold bind at 1. rewrite D_Set_typed by reflexivity. reduce.
  erewrite bind_val by (now apply (ID_of_work_request _ o)).
  unfold bind at 1, D_SetId, withD, modify. reduce.
  rewrite Hres, <- app_assoc. reflexivity.
Qed.

(** C1. A create on a fresh receiver in which: the mutation returns the
    work request handle [op]; the first status fetch reports the work
    request [o], carrying that handle and not yet Succeeded; the polled
    status fetches then report it pending for some rounds and finally
    Succeeded with the load balancer handle [h]; the load balancer [h]
    is fetched, pending for some rounds and finally as [r], which
    carries the handle [h] and is Active; and the [n] rounds this takes
    fit in the configured creation timeout.  Then the wait that [Create]
    runs, with pending Waiting and Creating, target Active and the
    creation timeout, starts with the work request as identifier and its
    status as provisional [state] field, and succeeds; [Create] succeeds
    without any further call; the external identifier is [h] and the
    persisted [state] field is Active. *)
Theorem Create_reaches_Active (s : crud) op h r n w1 w2 w3 o :
  Resource s = None ->
  client.CreateLoadBalancer (Client s)
    (asString (ResourceData.Get "compartment_id" (D s)))
    (asString (ResourceData.Get "shape" (D s)))
    (asList (ResourceData.Get "subnet_ids" (D s)))
    (asString (ResourceData.Get "display_name" (D s))) = (w1, (op, None)) ->
  HasPrefix op workRequestPrefix = true ->
  client.GetWorkRequest w1 op = (w2, (Some o, None)) ->
  baremetal.WorkRequest.ID o = op ->
  baremetal.WorkRequest.State o ≠ baremetal.WorkRequestSucceeded ->
  Completes op h r n w2 w3 ->
  HasPrefix h loadBalancerPrefix = true ->
  baremetal.LoadBalancer.ID r = h ->
  baremetal.LoadBalancer.State r = baremetal.ResourceActive ->
  n <= ResourceData.Timeout TimeoutCreate (D s) ->
  exists s2 s',
    resource.WaitForState
      {| resource.Pending :=
           [baremetal.ResourceWaitingForWorkRequest; baremetal.ResourceCreating];
         resource.Target := [baremetal.ResourceActive];
         resource.Timeout := ResourceData.Timeout TimeoutCreate (D s);
         resource.Refresh := refresh |}
      (BuildCrud
         (BuildResourceData op
            (<["state" := VString (baremetal.WorkRequest.State o)]> (fields (D s)))
            (partial (D s)) (timeouts (D s)))
         w2 (Some o) None
         (Calls s ++
          [client.CreateLoadBalancerCall
             (asString (ResourceData.Get "compartment_id" (D s)))
             (asString (ResourceData.Get "shape" (D s)))
             (asList (ResourceData.Get "subnet_ids" (D s)))
             (asString (ResourceData.Get "display_name" (D s)));
           client.GetWorkRequestCall op]))
      = (Val None, s2) /\
    Create s = (Val None, s') /\
    ResourceData.Id (D s') = h /\
    ResourceData.Get "state" (D s') = VString baremetal.ResourceActive /\
    Client s' = w3 /\ Calls s' = Calls s2 /\ Resource s' = Some r.
Proof.
  intros Hres Hcreate Hop Hwr Hoid Hst HC Hlb Hrid Hact Hle.
  rewrite (Create_until_wait s op w1 w2 o Hres Hcreate Hwr Hst). rewrite Hoid.
  match goal with |- context [_ ?s1 = (Val None, _)] => set (start := s1) end.
  destruct (poll_Completes _ _ _ _ _ _ HC Hop Hlb Hact start (D s)
              (ResourceData.Timeout TimeoutCreate (D s)))
    as (fs & calls & Hpoll); [reflexivity | reflexivity | reflexivity | exact Hle |].
  assert (Hne : baremetal.LoadBalancer.ID r ≠ "")
    by (rewrite Hrid; eapply HasPrefix_nonempty; exact Hlb).
  eexists _, _. split; [exact Hpoll|].
  assert (Hwait : WaitForCreatedState start = (Val None,
            BuildCrud (BuildResourceData h fs (partial (D start)) (timeouts (D start)))
                      w3 None (Some r) calls)).
  { unfold WaitForCreatedState, bind, gets, resource.WaitForState.
    change (resource.Timeout (createdConf (D start)))
      with (ResourceData.Timeout TimeoutCreate (D s)).
    change (createdConf (D start)) with (createdConf (D s)).
    now rewrite Hpoll. }
  rewrite (bind_val _ _ _ _ _ Hwait).
  erewrite bind_val by (now apply (ID_of_resource _ r)).
  unfold bind at 1, D_SetId, withD, modify. reduce.
  erewrite bind_val by (now apply (SetData_writes _ r)).
  unfold ret. reduce.
  split; [reflexivity|]. split; [exact Hrid|].
  split; [|repeat split].
  rewrite <- Hact. apply Get_stored; [reflexivity | apply written_state].
Qed.

(** ** Delete *)

(** A resolution on an identity that does not name a work request
    leaves the resource data alone. *)
Lemma Get_keeps_D (s : crud) :
  HasPrefix (ResourceData.Id (D s)) workRequestPrefix = false ->
  D (snd (Get s)) = D s.
Proof.
  intros Hwr.
  destruct (decide (ResourceData.Id (D s) = "")) as [Heq|Hne].
  { now rewrite Get_empty. }
  destruct (HasPrefix (ResourceData.Id (D s)) loadBalancerPrefix) eqn:Hlb.
  - destruct (client.GetLoadBalancer (Client s) (ResourceData.Id (D s)))
      as [w [r e]] eqn:Hc.
    now rewrite (Get_resource s w r e Hlb Hc).
  - now rewrite Get_malformed.
Qed.

Lemma refresh_keeps_D (s : crud) :
  HasPrefix (ResourceData.Id (D s)) workRequestPrefix = false ->
  D (snd (refresh s)) = D s.
Proof.
  intros Hwr. pose proof (Get_keeps_D s Hwr) as HD.
  unfold refresh, bind. destruct (Get s) as [[[e|]|p] s']; cbn [snd] in HD.
  - exact HD.
  - destruct (State_pure s') as [state ->]. exact HD.
  - exact HD.
Qed.

Lemma poll_keeps_D rounds : forall (conf : resource.StateChangeConf crud) (s : crud),
  resource.Refresh conf = refresh ->
  HasPrefix (ResourceData.Id (D s)) workRequestPrefix = false ->
  D (snd (resource.poll rounds conf s)) = D s.
Proof.
  induction rounds as [|n IH]; intros conf s Hconf Hwr; [reflexivity|].
  pose proof (refresh_keeps_D s Hwr) as HD.
  cbn [resource.poll]. unfold bind at 1. rewrite Hconf.
  destruct (refresh s) as [[[state [e|]]|p] s']; cbn [snd] in HD; try exact HD.
  destruct (bool_decide (state ∈ resource.Target conf)); [exact HD|].
  destruct (bool_decide (state ∈ resource.Pending conf)); [|exact HD].
  rewrite IH; [exact HD | exact Hconf | now rewrite HD].
Qed.

(** C3 (as the code has it). Once the delete mutation and the status
    fetch have succeeded, [Delete] is decided by the wait, run with
    pending Waiting and Deleting, target Deleted and the deletion
    timeout.  If the wait reaches the target, or ends on the not-found
    error of a refresh, [Delete] returns no error and the external
    identifier is empty.  On any other error of the wait, [Delete]
    returns that error and leaves the receiver as the wait left it: the
    identifier is not cleared, and it is the one [Delete] started with
    whenever that one does not carry the work request prefix. *)
Theorem Delete_outcome (s : crud) op w1 w2 o res s2 :
  client.DeleteLoadBalancer (Client s) (ResourceData.Id (D s)) = (w1, (op, None)) ->
  client.GetWorkRequest w1 op = (w2, (o, None)) ->
  resource.WaitForState
    {| resource.Pending :=
         [baremetal.ResourceWaitingForWorkRequest; baremetal.ResourceDeleting];
       resource.Target := [baremetal.ResourceDeleted];
       resource.Timeout := ResourceData.Timeout TimeoutDelete (D s);
       resource.Refresh := refresh |}
    (BuildCrud (D s) w2 o (Resource s)
       (Calls s ++ [client.DeleteLoadBalancerCall (ResourceData.Id (D s));
                    client.GetWorkRequestCall op]))
  = (Val res, s2) ->
  match res with
  | None | Some NotFound =>
      exists s', Delete s = (Val None, s') /\ ResourceData.Id (D s') = ""
  | Some e =>
      Delete s = (Val (Some e), s2) /\
      (HasPrefix (ResourceData.Id (D s)) workRequestPrefix = false ->
       ResourceData.Id (D s2) = ResourceData.Id (D s))
  end.
Proof.
  intros Hdel Hwr Hwait.
  assert (Hkept : HasPrefix (ResourceData.Id (D s)) workRequestPrefix = false ->
                  ResourceData.Id (D s2) = ResourceData.Id (D s)).
  { intros Hp. unfold resource.WaitForState in Hwait.
    match type of Hwait with resource.poll ?n ?c ?s1 = _ =>
      pose proof (poll_keeps_D n c s1 eq_refl Hp) as HD
    end.
    rewrite Hwait in HD. cbn [snd D] in HD. now rewrite HD. }
  assert (Hrun : Delete s =
            (err <- WaitForDeletedState ;;
             match err with
             | Some _ => crud.FilterMissingResourceError VoidState err
             | None => VoidState ;; ret err
             end)%go
            (BuildCrud (D s) w2 o (Resource s)
               (Calls s ++ [client.DeleteLoadBalancerCall (ResourceData.Id (D s));
                            client.GetWorkRequestCall op]))).
  { unfold Delete. unfold bind at 1, gets at 1.
    unfold bind at 1, Client_DeleteLoadBalancer, call. rewrite Hdel.
    unfold bind at 1, ret at 1.
    unfold bind at 1, Client_GetWorkRequest, call. reduce. rewrite Hwr.
    unfold bind at 1, ret at 1.
    unfold bind at 1, setWorkRequest, modify. reduce.
    now rewrite <- app_assoc. }
  assert (HW : WaitForDeletedState
                 (BuildCrud (D s) w2 o (Resource s)
                    (Calls s ++ [client.DeleteLoadBalancerCall (ResourceData.Id (D s));
                                 client.GetWorkRequestCall op]))
               = match res with
                 | Some _ => crud.FilterMissingResourceError VoidState res s2
                 | None => (Val None, s2)
                 end).
  { unfold WaitForDeletedState, bind, gets. reduce.
    change (deletedConf (D s)) with
      {| resource.Pending :=
           [baremetal.ResourceWaitingForWorkRequest; baremetal.ResourceDeleting];
         resource.Target := [baremetal.ResourceDeleted];
         resource.Timeout := ResourceData.Timeout TimeoutDelete (D s);
         resource.Refresh := refresh |}.
    rewrite Hwait. now destruct res. }
  destruct res as [e|]; [destruct e|];
    rewrite Hrun; unfold bind at 1; rewrite HW;
    cbn [crud.FilterMissingResourceError];
    try (split; [reflexivity | exact Hkept]);
    eexists; split; reflexivity.
Qed.

(** ** Update *)

Lemma display_name_of_GetOk (d : ResourceData) :
  (let '(displayName, ok) := ResourceData.GetOk "display_name" d in
   if ok then asString displayName else "")
  = asString (ResourceData.Get "display_name" d).
Proof.
  unfold ResourceData.GetOk.
  destruct (ResourceData.Get "display_name" d) as [v|l]; cbn.
  - case_bool_decide; cbn; congruence.
  - now case_bool_decide.
Qed.

(** C8 (as the code has it). [Update], on a receiver holding no load
    balancer with a handle: it issues the update mutation for the
    identifier with the display name, fetches the status of the work
    request the mutation returned and caches it, and returns; these two
    calls are the only ones, so nothing is polled.  The resource data is
    left as it was (only the partial mode is switched off): the persisted
    [state] field keeps its former value, and it is the composite state
    that is the last observed status of the work request. *)
Theorem Update_captures_operation (s : crud) op w1 w2 o :
  (forall r, Resource s = Some r -> baremetal.LoadBalancer.ID r = "") ->
  client.UpdateLoadBalancer (Client s) (ResourceData.Id (D s))
    (asString (ResourceData.Get "display_name" (D s))) = (w1, (op, None)) ->
  client.GetWorkRequest w1 op = (w2, (o, None)) ->
  exists s',
    Update s = (Val None, s') /\
    s' = BuildCrud (ResourceData.Partial false (D s)) w2 o (Resource s)
           (Calls s ++
            [client.UpdateLoadBalancerCall (ResourceData.Id (D s))
               (asString (ResourceData.Get "display_name" (D s)));
             client.GetWorkRequestCall op]) /\
    ResourceData.Get "state" (D s') = ResourceData.Get "state" (D s) /\
    (forall wr, Resource s = None -> o = Some wr ->
       State s' = (Val (baremetal.WorkRequest.State wr), s')).
Proof.
  intros Hnone Hupd Hwr.
  eexists. split; [|split; [reflexivity|split]].
  - unfold Update. unfold bind at 1, withD at 1, modify at 1.
    unfold bind at 1, gets at 1. unfold bind at 1, gets at 1. reduce.
    unfold ResourceData.Partial at 1 2. reduce.
    change (ResourceData.GetOk "display_name"
              (BuildResourceData (id (D s)) (fields (D s)) true (timeouts (D s))))
      with (ResourceData.GetOk "display_name" (D s)).
    rewrite display_name_of_GetOk.
    unfold bind at 1, Client_UpdateLoadBalancer, call. reduce.
    unfold ResourceData.Id in Hupd. rewrite Hupd.
    unfold bind at 1, ret at 1.
    unfold bind at 1, Client_GetWorkRequest, call. reduce. rewrite Hwr.
    unfold bind at 1, ret at 1.
    unfold bind at 1, setWorkRequest, modify. reduce.
    unfold bind at 1, withD, modify. reduce.
    erewrite bind_val by (apply SetData_skips; reduce; exact Hnone).
    unfold ret, ResourceData.Partial. reduce. now rewrite <- app_assoc.
  - reflexivity.
  - intros wr Hres ->. now apply State_of_work_request.
Qed.

(** * Further properties of the lifecycle *)

(** ** What a resolution touches *)

Lemma keepsFields_refl d : keepsFields d d.
Proof. now intros key Hkey. Qed.

Lemma keepsFields_trans d1 d2 d3 :
  keepsFields d1 d2 -> keepsFields d2 d3 -> keepsFields d1 d3.
Proof. intros H12 H23 key Hkey. now rewrite H23, H12. Qed.

Lemma keepsFields_state d ident v p t :
  keepsFields d (BuildResourceData ident (<["state" := v]> (fields d)) p t).
Proof. intros key Hkey. reduce. now apply lookup_insert_ne. Qed.

(** The cases of [Get], on a goal that mentions [Get s]. *)
Ltac Get_cases s :=
  let Hempty := fresh "Hempty" in
  let Hwr := fresh "Hwr" in
  let Hlb := fresh "Hlb" in
  let Hst := fresh "Hst" in
  let Hf := fresh "Hf" in
  let Hsucc := fresh "Hsucc" in
  let Hh := fresh "Hh" in
  let w1 := fresh "w1" in
  let w2 := fresh "w2" in
  let o := fresh "o" in
  let e := fresh "e" in
  let e2 := fresh "e2" in
  let r := fresh "r" in
  destruct (decide (ResourceData.Id (D s) = "")) as [Hempty|Hempty];
  [ rewrite (Get_empty s Hempty)
  | destruct (HasPrefix (ResourceData.Id (D s)) workRequestPrefix) eqn:Hwr;
    [ destruct (client.GetWorkRequest (Client s) (ResourceData.Id (D s)))
        as [w1 [[o|] e]] eqn:Hst;
      [ rewrite (Get_refreshes s w1 (Some o) e Hwr Hst); cbv beta iota zeta;
        destruct (bool_decide (baremetal.WorkRequest.State o
                               = baremetal.WorkRequestSucceeded)) eqn:Hsucc;
        [ destruct (bool_decide (baremetal.WorkRequest.LoadBalancerID o = "")) eqn:Hh;
          [ | destruct (HasPrefix (baremetal.WorkRequest.LoadBalancerID o)
                                  loadBalancerPrefix) eqn:Hlb;
              [ destruct (client.GetLoadBalancer w1
                            (baremetal.WorkRequest.LoadBalancerID o))
                  as [w2 [r e2]] eqn:Hf;
                rewrite (fetchLoadBalancer_fetches _ _ w2 r e2)
                  by (try exact Hlb; exact Hf)
              | rewrite fetchLoadBalancer_malformed by exact Hlb ] ]
        | ]
      | rewrite (Get_refreshes s w1 None e Hwr Hst); cbv beta iota ]
    | destruct (HasPrefix (ResourceData.Id (D s)) loadBalancerPrefix) eqn:Hlb;
      [ destruct (client.GetLoadBalancer (Client s) (ResourceData.Id (D s)))
          as [w1 [r e]] eqn:Hf;
        rewrite (Get_resource s w1 r e Hlb Hf)
      | rewrite (Get_malformed s Hempty Hwr Hlb) ] ] ];
  reduce.

(** X1. Whatever the identity and whatever the control plane answers,
    [Get] writes no field of the resource data but [state], and changes
    neither the partial mode nor the timeouts; this also holds when it
    panics. *)
Theorem Get_only_writes_state (s : crud) :
  keepsFields (D s) (D (snd (Get s))) /\
  partial (D (snd (Get s))) = partial (D s) /\
  timeouts (D (snd (Get s))) = timeouts (D s).
Proof.
  Get_cases s; cbn [snd]; reduce;
    (split; [first [apply keepsFields_refl | apply keepsFields_state] | split; reflexivity]).
Qed.

(** X2. [Get] issues at most two calls, and only calls that resolve an
    identity: a status fetch goes to an identifier with the work request
    prefix, a fetch to an identifier with the load balancer prefix, and
    no mutation is ever issued. *)
Theorem Get_calls_resolve (s : crud) :
  exists new,
    Calls (snd (Get s)) = Calls s ++ new /\
    length new <= 2 /\
    Forall resolves new.
Proof.
  Get_cases s; cbn [snd]; reduce;
    try (exists []; split; [now rewrite app_nil_r | split; [cbn; lia | constructor]]);
    try (eexists [_]; split; [reflexivity | split; [cbn; lia |]];
         repeat constructor; assumption).
  eexists [_; _]. rewrite <- app_assoc.
  split; [reflexivity | split; [cbn; lia |]].
  repeat constructor; assumption.
Qed.

(** X3. When [Get] returns (with or without an error), the external
    identifier is a legal identity: it carries the work request prefix,
    and then the cached work request is not Succeeded, or it carries the
    load balancer prefix; in particular it is not empty. *)
Theorem Get_returns_legal_identity (s : crud) res s' :
  Get s = (Val res, s') ->
  ResourceData.Id (D s') ≠ "" /\
  ((HasPrefix (ResourceData.Id (D s')) workRequestPrefix = true /\
    exists o, WorkRequest s' = Some o /\
      baremetal.WorkRequest.State o ≠ baremetal.WorkRequestSucceeded) \/
   HasPrefix (ResourceData.Id (D s')) loadBalancerPrefix = true).
Proof.
  revert res s'. Get_cases s; intros res s' Hrun; inversion Hrun; subst; reduce.
  - split; [eapply HasPrefix_nonempty; eassumption|]. now right.
  - split; [assumption|]. left. split; [assumption|].
    eexists. split; [reflexivity|].
    match goal with H : bool_decide _ = false |- _ =>
      apply bool_decide_eq_false in H; exact H end.
  - split; [eapply HasPrefix_nonempty; eassumption|]. now right.
Qed.

(** ** Read *)

Lemma written_Materialized (r : baremetal.LoadBalancer.t) fs p t :
  Materialized r (BuildResourceData (baremetal.LoadBalancer.ID r) (written r fs) p t).
Proof.
  unfold Materialized. split; [reflexivity|].
  repeat split;
    (apply Get_stored; [reflexivity | unfold written; reduce; now simplify_map_eq]).
Qed.

(** X4. [Read] on an identity with the load balancer prefix whose fetch
    succeeds makes that one call.  If the load balancer fetched carries
    a handle, [Read] returns no error and the identifier and the eight
    fields read back as that load balancer.  If the control plane
    returned no load balancer, or one without a handle, [Read] returns no
    error either and leaves the resource data as it was. *)
Theorem Read_of_load_balancer (s : crud) w r :
  HasPrefix (ResourceData.Id (D s)) loadBalancerPrefix = true ->
  client.GetLoadBalancer (Client s) (ResourceData.Id (D s)) = (w, (r, None)) ->
  exists s',
    Read s = (Val None, s') /\
    Resource s' = r /\ WorkRequest s' = WorkRequest s /\ Client s' = w /\
    Calls s' = Calls s ++ [client.GetLoadBalancerCall (ResourceData.Id (D s))] /\
    (forall lb, r = Some lb -> baremetal.LoadBalancer.ID lb ≠ "" ->
       Materialized lb (D s')) /\
    ((forall lb, r = Some lb -> baremetal.LoadBalancer.ID lb = "") -> D s' = D s).
Proof.
  intros Hlb Hc. unfold Read.
  rewrite (bind_val _ _ _ _ _ (Get_resource s w r None Hlb Hc)). cbv beta iota.
  match goal with |- context [bind SetData _ ?s1] => set (fetched := s1) end.
  destruct (hasResourceID fetched) as [lb|] eqn:Hhas.
  - assert (Hr : r = Some lb /\ baremetal.LoadBalancer.ID lb ≠ "").
    { unfold hasResourceID, fetched in Hhas. reduce_in Hhas.
      destruct r as [lb'|]; [|discriminate].
      case_bool_decide; [discriminate|]. now inversion Hhas; subst. }
    destruct Hr as [-> Hne].
    erewrite bind_val by (now apply (SetData_writes fetched lb)).
    unfold ret, fetched. reduce. eexists. split; [reflexivity|]. reduce.
    do 4 (split; [reflexivity|]). split.
    + intros lb' Heq _. inversion Heq; subst. apply written_Materialized.
    + intros Hnone. now specialize (Hnone lb eq_refl).
  - assert (Hnone : forall lb, r = Some lb -> baremetal.LoadBalancer.ID lb = "").
    { intros lb ->. unfold hasResourceID, fetched in Hhas. reduce_in Hhas.
      now case_bool_decide. }
    erewrite bind_val by (apply SetData_skips; exact Hnone).
    unfold ret, fetched. eexists. split; [reflexivity|]. reduce.
    do 4 (split; [reflexivity|]). split; [|reflexivity].
    intros lb Heq Hne. now specialize (Hnone lb Heq).
Qed.

(** X5. [Read] on an identity with the load balancer prefix whose fetch
    fails makes that one call and never materializes, even if a load
    balancer came with the error: the fields are left as they were.  On
    the not-found error [Read] returns no error and the identifier is
    cleared; any other error is returned and the identifier is kept. *)
Theorem Read_of_failed_fetch (s : crud) w r e :
  HasPrefix (ResourceData.Id (D s)) loadBalancerPrefix = true ->
  client.GetLoadBalancer (Client s) (ResourceData.Id (D s)) = (w, (r, Some e)) ->
  exists s',
    Read s = (Val (if decide (e = NotFound) then None else Some e), s') /\
    ResourceData.Id (D s')
      = (if decide (e = NotFound) then "" else ResourceData.Id (D s)) /\
    fields (D s') = fields (D s) /\
    Resource s' = r /\
    Calls s' = Calls s ++ [client.GetLoadBalancerCall (ResourceData.Id (D s))].
Proof.
  intros Hlb Hc. unfold Read.
  rewrite (bind_val _ _ _ _ _ (Get_resource s w r (Some e) Hlb Hc)). cbv beta iota.
  destruct e; cbn [crud.FilterMissingResourceError];
    eexists; (split; [reflexivity|]); reduce;
    (split; [reflexivity|]); (split; [reflexivity|]); split; reflexivity.
Qed.

(** X6. [Read] on a work request identity whose status is Succeeded with
    a handle [h] carrying the load balancer prefix, the load balancer [h]
    being fetched without error and carrying a handle: [Read] returns no
    error after these two calls, the work request is no longer cached,
    and the identifier and the eight fields read back as the load
    balancer.  An error that came with the Succeeded status is not
    returned. *)
Theorem Read_after_handoff (s : crud) w1 w2 o e r :
  HasPrefix (ResourceData.Id (D s)) workRequestPrefix = true ->
  client.GetWorkRequest (Client s) (ResourceData.Id (D s)) = (w1, (Some o, e)) ->
  baremetal.WorkRequest.State o = baremetal.WorkRequestSucceeded ->
  HasPrefix (baremetal.WorkRequest.LoadBalancerID o) loadBalancerPrefix = true ->
  client.GetLoadBalancer w1 (baremetal.WorkRequest.LoadBalancerID o)
    = (w2, (Some r, None)) ->
  baremetal.LoadBalancer.ID r ≠ "" ->
  exists s',
    Read s = (Val None, s') /\
    Materialized r (D s') /\
    WorkRequest s' = None /\ Resource s' = Some r /\ Client s' = w2 /\
    Calls s' = Calls s ++
      [client.GetWorkRequestCall (ResourceData.Id (D s));
       client.GetLoadBalancerCall (baremetal.WorkRequest.LoadBalancerID o)].
Proof.
  intros Hwr Hc Hst Hlb Hf Hne.
  pose proof (Get_refreshes s w1 (Some o) e Hwr Hc) as HGet.
  cbv beta iota zeta in HGet.
  rewrite bool_decide_eq_true_2 in HGet by exact Hst.
  rewrite bool_decide_eq_false_2 in HGet
    by (eapply HasPrefix_nonempty; exact Hlb).
  rewrite (fetchLoadBalancer_fetches _ _ w2 (Some r) None) in HGet
    by (try exact Hlb; exact Hf).
  reduce_in HGet.
  unfold Read. rewrite (bind_val _ _ _ _ _ HGet). cbv beta iota.
  erewrite bind_val by (now apply (SetData_writes _ r)).
  unfold ret. reduce. eexists. split; [reflexivity|]. reduce.
  split; [apply written_Materialized|]. do 3 (split; [reflexivity|]).
  now rewrite <- app_assoc.
Qed.

(** ** SetData *)

Lemma written_twice (r : baremetal.LoadBalancer.t) (fs : gmap string Value) :
  written r (written r fs) = written r fs.
Proof.
  apply map_eq. intros key. unfold written.
  destruct (decide (key = "ip_addresses")) as [->|?]; [now simplify_map_eq|].
  destruct (decide (key = "time_created")) as [->|?]; [now simplify_map_eq|].
  destruct (decide (key = "state")) as [->|?]; [now simplify_map_eq|].
  destruct (decide (key = "id")) as [->|?]; [now simplify_map_eq|].
  destruct (decide (key = "subnet_ids")) as [->|?]; [now simplify_map_eq|].
  destruct (decide (key = "shape")) as [->|?]; [now simplify_map_eq|].
  destruct (decide (key = "display_name")) as [->|?]; [now simplify_map_eq|].
  destruct (decide (key = "compartment_id")) as [->|?]; [now simplify_map_eq|].
  now rewrite !lookup_insert_ne by congruence.
Qed.

(** X7. [SetData] is idempotent: running it a second time leaves the
    receiver as the first run left it. *)
Theorem SetData_idempotent (s : crud) :
  SetData (snd (SetData s)) = (Val tt, snd (SetData s)).
Proof.
  destruct (hasResourceID s) as [lb|] eqn:Hhas.
  - assert (Hr : Resource s = Some lb /\ baremetal.LoadBalancer.ID lb ≠ "").
    { unfold hasResourceID in Hhas. destruct (Resource s) as [lb'|]; [|discriminate].
      case_bool_decide; [discriminate|]. now inversion Hhas; subst. }
    destruct Hr as [Hr Hne].
    rewrite (SetData_writes s lb Hr Hne). cbn [snd].
    rewrite (SetData_writes _ lb) by (try exact Hr; exact Hne). reduce.
    now rewrite written_twice.
  - assert (Hnone : forall lb, Resource s = Some lb -> baremetal.LoadBalancer.ID lb = "").
    { intros lb Hr. unfold hasResourceID in Hhas. rewrite Hr in Hhas.
      now case_bool_decide. }
    rewrite (SetData_skips s Hnone). cbn [snd]. now apply SetData_skips.
Qed.

(** ** What a wait keeps *)

Lemma refresh_snd (s : crud) : snd (refresh s) = snd (Get s).
Proof.
  unfold refresh, bind. destruct (Get s) as [[[e|]|p] s']; cbn [snd]; try reflexivity.
  now destruct (State_pure s') as [state ->].
Qed.

(** What every resolution keeps, a wait keeps. *)
Lemma poll_invariant (P : crud -> Prop) :
  (forall s, P s -> P (snd (Get s))) ->
  forall rounds (conf : resource.StateChangeConf crud) s,
    resource.Refresh conf = refresh -> P s ->
    P (snd (resource.poll rounds conf s)).
Proof.
  intros HGet. induction rounds as [|n IH]; intros conf s Hconf HP; [exact HP|].
  pose proof (HGet s HP) as HP'. rewrite <- refresh_snd in HP'.
  cbn [resource.poll]. unfold bind at 1. rewrite Hconf.
  destruct (refresh s) as [[[state [e|]]|p] s']; cbn [snd] in HP'; try exact HP'.
  destruct (bool_decide (state ∈ resource.Target conf)); [exact HP'|].
  destruct (bool_decide (state ∈ resource.Pending conf)); [|exact HP'].
  now apply IH.
Qed.

Lemma Get_keepsFields (d : ResourceData) (s : crud) :
  keepsFields d (D s) -> keepsFields d (D (snd (Get s))).
Proof.
  intros Hd. eapply keepsFields_trans; [exact Hd|].
  Get_cases s; cbn [snd]; reduce;
    first [apply keepsFields_refl | apply keepsFields_state].
Qed.

Lemma Get_keeps_identifier (s : crud) :
  ResourceData.Id (D s) ≠ "" -> ResourceData.Id (D (snd (Get s))) ≠ "".
Proof.
  intros Hne. Get_cases s; cbn [snd]; reduce; try assumption;
    match goal with H : bool_decide _ = false |- _ =>
      apply bool_decide_eq_false in H; exact H end.
Qed.

(** ** Create: the ways out *)

(** X8. [Create] gives up before the wait when the create mutation or
    the first status fetch returns an error: the error is returned, no
    further call is made, and the resource data is left as it was.  In
    the second case the handle of the work request just created is
    recorded nowhere: neither the identifier nor the cached work request
    is set. *)
Theorem Create_fails_before_wait (s : crud) w1 op :
  (forall e,
     client.CreateLoadBalancer (Client s)
       (asString (ResourceData.Get "compartment_id" (D s)))
       (asString (ResourceData.Get "shape" (D s)))
       (asList (ResourceData.Get "subnet_ids" (D s)))
       (asString (ResourceData.Get "display_name" (D s))) = (w1, (op, Some e)) ->
     Create s =
       (Val (Some e),
        BuildCrud (D s) w1 (WorkRequest s) (Resource s)
          (Calls s ++
           [client.CreateLoadBalancerCall
              (asString (ResourceData.Get "compartment_id" (D s)))
              (asString (ResourceData.Get "shape" (D s)))
              (asList (ResourceData.Get "subnet_ids" (D s)))
              (asString (ResourceData.Get "display_name" (D s)))]))) /\
  (forall w2 o e,
     client.CreateLoadBalancer (Client s)
       (asString (ResourceData.Get "compartment_id" (D s)))
       (asString (ResourceData.Get "shape" (D s)))
       (asList (ResourceData.Get "subnet_ids" (D s)))
       (asString (ResourceData.Get "display_name" (D s))) = (w1, (op, None)) ->
     client.GetWorkRequest w1 op = (w2, (o, Some e)) ->
     Create s =
       (Val (Some e),
        BuildCrud (D s) w2 (WorkRequest s) (Resource s)
          (Calls s ++
           [client.CreateLoadBalancerCall
              (asString (ResourceData.Get "compartment_id" (D s)))
              (asString (ResourceData.Get "shape" (D s)))
              (asList (ResourceData.Get "subnet_ids" (D s)))
              (asString (ResourceData.Get "display_name" (D s)));
            client.GetWorkRequestCall op]))).
Proof.
  split.
  - intros e Hcreate. unfold Create.
    unfold bind at 1, gets at 1. unfold bind at 1, gets at 1.
    unfold bind at 1, gets at 1. unfold bind at 1, gets at 1.
    unfold bind at 1, Client_CreateLoadBalancer, call. rewrite Hcreate.
    unfold bind at 1, ret. reflexivity.
  - intros w2 o e Hcreate Hwr. unfold Create.
    unfold bind at 1, gets at 1. unfold bind at 1, gets at 1.
    unfold bind at 1, gets at 1. unfold bind at 1, gets at 1.
    unfold bind at 1, Client_CreateLoadBalancer, call. rewrite Hcreate.
    unfold bind at 1, ret at 1.
    unfold bind at 1, Client_GetWorkRequest, call. reduce. rewrite Hwr.
    unfold bind at 1, ret. now rewrite <- app_assoc.
Qed.

Lemma WaitForCreatedState_run (s : crud) res s2 :
  resource.WaitForState (createdConf (D s)) s = (Val res, s2) ->
  WaitForCreatedState s =
    match res with
    | Some _ => crud.FilterMissingResourceError VoidState res s2
    | None => (Val None, s2)
    end.
Proof.
  intros Hwait. unfold WaitForCreatedState, bind, gets.
  rewrite Hwait. now destruct res.
Qed.

(** X9. When the wait of [Create] fails with an error other than
    not-found (a timeout, an unexpected state, an error of a fetch),
    [Create] returns that error and leaves the receiver as the wait left
    it: nothing is cleared, and the external identifier is not empty, so
    that a later read can resume from the work request or from the load
    balancer it was handed over to. *)
Theorem Create_wait_failure_keeps_identity (s : crud) op w1 w2 o e s2 :
  Resource s = None ->
  client.CreateLoadBalancer (Client s)
    (asString (ResourceData.Get "compartment_id" (D s)))
    (asString (ResourceData.Get "shape" (D s)))
    (asList (ResourceData.Get "subnet_ids" (D s)))
    (asString (ResourceData.Get "display_name" (D s))) = (w1, (op, None)) ->
  client.GetWorkRequest w1 op = (w2, (Some o, None)) ->
  baremetal.WorkRequest.State o ≠ baremetal.WorkRequestSucceeded ->
  baremetal.WorkRequest.ID o ≠ "" ->
  resource.WaitForState (createdConf (D s)) (createStarted s op w2 o)
    = (Val (Some e), s2) ->
  e ≠ NotFound ->
  Create s = (Val (Some e), s2) /\ ResourceData.Id (D s2) ≠ "".
Proof.
  intros Hres Hcreate Hwr Hst Hid Hwait Hne.
  split.
  - rewrite (Create_until_wait s op w1 w2 o Hres Hcreate Hwr Hst).
    unfold bind at 1. erewrite WaitForCreatedState_run by exact Hwait.
    destruct e; cbn [crud.FilterMissingResourceError]; try reflexivity.
    now contradict Hne.
  - unfold resource.WaitForState in Hwait.
    match type of Hwait with resource.poll ?n ?c ?s1 = _ =>
      pose proof (poll_invariant (fun x => ResourceData.Id (D x) ≠ "")
                    Get_keeps_identifier n c s1 eq_refl Hid) as HP
    end.
    now rewrite Hwait in HP.
Qed.

Lemma ID_pure (s : crud) : exists ident, ID s = (Val ident, s).
Proof.
  unfold ID, this, bind, gets, ret.
  destruct (hasResourceID s); [eauto|].
  destruct (WorkRequest s); [|eauto]. now case_bool_decide; eauto.
Qed.

Lemma ID_of_nothing (s : crud) :
  (forall r, Resource s = Some r -> baremetal.LoadBalancer.ID r = "") ->
  WorkRequest s = None ->
  ID s = (Val "", s).
Proof.
  intros Hnone Hwr. unfold ID, this, bind, gets.
  now rewrite (hasResourceID_None s Hnone), Hwr.
Qed.

(** What [Create] does once the wait has returned no error. *)
Lemma Create_finish (s2 : crud) ident :
  ID s2 = (Val ident, s2) ->
  exists s',
    (ident' <- ID ;; D_SetId ident' ;; SetData ;; ret (@None error))%go s2
      = (Val None, s') /\
    ResourceData.Id (D s') = ident /\
    Calls s' = Calls s2 /\ Client s' = Client s2 /\
    (forall r, Resource s2 = Some r -> baremetal.LoadBalancer.ID r ≠ "" ->
       Materialized r (D s')) /\
    ((forall r, Resource s2 = Some r -> baremetal.LoadBalancer.ID r = "") ->
       fields (D s') = fields (D s2)).
Proof.
  intros HID. rewrite (bind_val _ _ _ _ _ HID).
  unfold bind at 1, D_SetId, withD, modify. reduce.
  match goal with |- context [bind SetData _ ?s1] => set (named := s1) end.
  destruct (hasResourceID s2) as [lb|] eqn:Hhas.
  - assert (Hr : Resource s2 = Some lb /\ baremetal.LoadBalancer.ID lb ≠ "").
    { unfold hasResourceID in Hhas. destruct (Resource s2) as [lb'|]; [|discriminate].
      case_bool_decide; [discriminate|]. now inversion Hhas; subst. }
    destruct Hr as [Hr Hne].
    assert (ident = baremetal.LoadBalancer.ID lb) as ->.
    { rewrite (ID_of_resource s2 lb Hr Hne) in HID. now inversion HID. }
    erewrite bind_val by (now apply (SetData_writes named lb)).
    unfold ret, named. reduce. eexists. split; [reflexivity|]. reduce.
    do 3 (split; [reflexivity|]). split.
    + intros r Heq _. rewrite Hr in Heq. inversion Heq; subst.
      apply written_Materialized.
    + intros Hnone. now specialize (Hnone lb Hr).
  - assert (Hnone : forall r, Resource s2 = Some r -> baremetal.LoadBalancer.ID r = "").
    { intros r Hr. unfold hasResourceID in Hhas. rewrite Hr in Hhas.
      now case_bool_decide. }
    erewrite bind_val by (apply SetData_skips; exact Hnone).
    unfold ret, named. eexists. split; [reflexivity|]. reduce.
    do 3 (split; [reflexivity|]). split; [|reflexivity].
    intros r Hr Hne. now specialize (Hnone r Hr).
Qed.

Lemma ID_ignores_D (d : ResourceData) (s : crud) ident :
  ID s = (Val ident, s) ->
  ID (BuildCrud d (Client s) (WorkRequest s) (Resource s) (Calls s))
  = (Val ident, BuildCrud d (Client s) (WorkRequest s) (Resource s) (Calls s)).
Proof.
  unfold ID, this, bind, gets, ret, hasResourceID. reduce.
  destruct (Resource s) as [lb|].
  - case_bool_decide; [|now inversion 1].
    destruct (WorkRequest s); [case_bool_decide|]; now inversion 1.
  - destruct (WorkRequest s); [case_bool_decide|]; now inversion 1.
Qed.

(** X10. When the wait of [Create] succeeds and leaves a load balancer
    with a handle, [Create] returns no error without any further call,
    and the identifier and all eight fields read back as that load
    balancer. *)
Theorem Create_materializes (s : crud) op w1 w2 o s2 r :
  Resource s = None ->
  client.CreateLoadBalancer (Client s)
    (asString (ResourceData.Get "compartment_id" (D s)))
    (asString (ResourceData.Get "shape" (D s)))
    (asList (ResourceData.Get "subnet_ids" (D s)))
    (asString (ResourceData.Get "display_name" (D s))) = (w1, (op, None)) ->
  client.GetWorkRequest w1 op = (w2, (Some o, None)) ->
  baremetal.WorkRequest.State o ≠ baremetal.WorkRequestSucceeded ->
  resource.WaitForState (createdConf (D s)) (createStarted s op w2 o)
    = (Val None, s2) ->
  Resource s2 = Some r ->
  baremetal.LoadBalancer.ID r ≠ "" ->
  exists s',
    Create s = (Val None, s') /\
    Materialized r (D s') /\
    Calls s' = Calls s2 /\ Client s' = Client s2.
Proof.
  intros Hres Hcreate Hwr Hst Hwait Hr Hne.
  rewrite (Create_until_wait s op w1 w2 o Hres Hcreate Hwr Hst).
  unfold bind at 1. erewrite WaitForCreatedState_run by exact Hwait.
  destruct (Create_finish s2 _ (ID_of_resource s2 r Hr Hne))
    as (s' & Hrun & _ & Hcalls & Hclient & Hmat & _).
  exists s'. split; [exact Hrun|]. split; [now apply Hmat|]. now split.
Qed.

(** X11. When the wait of [Create] ends on the not-found error of a
    fetch, [Create] does not return it: it returns no error.  The
    identifier, cleared for the missing resource, is set again to what
    [ID] reports on the receiver the wait left, which is the empty string
    when neither a work request nor a load balancer with a handle is
    cached. *)
Theorem Create_absorbs_not_found (s : crud) op w1 w2 o s2 :
  Resource s = None ->
  client.CreateLoadBalancer (Client s)
    (asString (ResourceData.Get "compartment_id" (D s)))
    (asString (ResourceData.Get "shape" (D s)))
    (asList (ResourceData.Get "subnet_ids" (D s)))
    (asString (ResourceData.Get "display_name" (D s))) = (w1, (op, None)) ->
  client.GetWorkRequest w1 op = (w2, (Some o, None)) ->
  baremetal.WorkRequest.State o ≠ baremetal.WorkRequestSucceeded ->
  resource.WaitForState (createdConf (D s)) (createStarted s op w2 o)
    = (Val (Some NotFound), s2) ->
  exists s',
    Create s = (Val None, s') /\
    (forall ident, ID s2 = (Val ident, s2) -> ResourceData.Id (D s') = ident) /\
    (WorkRequest s2 = None ->
     (forall r, Resource s2 = Some r -> baremetal.LoadBalancer.ID r = "") ->
     ResourceData.Id (D s') = "") /\
    Calls s' = Calls s2.
Proof.
  intros Hres Hcreate Hwr Hst Hwait.
  rewrite (Create_until_wait s op w1 w2 o Hres Hcreate Hwr Hst).
  unfold bind at 1. erewrite WaitForCreatedState_run by exact Hwait.
  cbn [crud.FilterMissingResourceError].
  unfold bind at 1, VoidState, D_SetId, withD, modify, ret at 1.
  destruct (ID_pure s2) as [ident HID].
  pose proof (ID_ignores_D (ResourceData.SetId "" (D s2)) s2 ident HID) as HID'.
  destruct (Create_finish _ _ HID') as (s' & Hrun & Hident & Hcalls & _ & _ & _).
  exists s'. split; [exact Hrun|]. split; [|split; [|exact Hcalls]].
  - intros ident' HID2. rewrite Hident. congruence.
  - intros Hnowr Hnone. rewrite Hident.
    rewrite (ID_of_nothing s2 Hnone Hnowr) in HID. now inversion HID.
Qed.

(** ** Delete: the ways out *)

Lemma Delete_until_wait (s : crud) op w1 w2 o :
  client.DeleteLoadBalancer (Client s) (ResourceData.Id (D s)) = (w1, (op, None)) ->
  client.GetWorkRequest w1 op = (w2, (o, None)) ->
  Delete s =
    (err <- WaitForDeletedState ;;
     match err with
     | Some _ => crud.FilterMissingResourceError VoidState err
     | None => VoidState ;; ret err
     end)%go (deleteStarted s op w2 o).
Proof.
  intros Hdel Hwr. unfold Delete. unfold bind at 1, gets at 1.
  unfold bind at 1, Client_DeleteLoadBalancer, call. rewrite Hdel.
  unfold bind at 1, ret at 1.
  unfold bind at 1, Client_GetWorkRequest, call. reduce. rewrite Hwr.
  unfold bind at 1, ret at 1.
  unfold bind at 1, setWorkRequest, modify. reduce.
  unfold deleteStarted. now rewrite <- app_assoc.
Qed.

(** X12. [Delete] gives up before the wait when the delete mutation or
    the status fetch returns an error: the error is returned, no further
    call is made, and the receiver keeps its resource data, identifier
    included, and its cached work request. *)
Theorem Delete_fails_before_wait (s : crud) w1 op :
  (forall e,
     client.DeleteLoadBalancer (Client s) (ResourceData.Id (D s))
       = (w1, (op, Some e)) ->
     Delete s =
       (Val (Some e),
        BuildCrud (D s) w1 (WorkRequest s) (Resource s)
          (Calls s ++ [client.DeleteLoadBalancerCall (ResourceData.Id (D s))]))) /\
  (forall w2 o e,
     client.DeleteLoadBalancer (Client s) (ResourceData.Id (D s))
       = (w1, (op, None)) ->
     client.GetWorkRequest w1 op = (w2, (o, Some e)) ->
     Delete s =
       (Val (Some e),
        BuildCrud (D s) w2 (WorkRequest s) (Resource s)
          (Calls s ++ [client.DeleteLoadBalancerCall (ResourceData.Id (D s));
                       client.GetWorkRequestCall op]))).
Proof.
  split.
  - intros e Hdel. unfold Delete. unfold bind at 1, gets at 1.
    unfold bind at 1, Client_DeleteLoadBalancer, call. rewrite Hdel.
    unfold bind at 1, ret. reflexivity.
  - intros w2 o e Hdel Hwr. unfold Delete. unfold bind at 1, gets at 1.
    unfold bind at 1, Client_DeleteLoadBalancer, call. rewrite Hdel.
    unfold bind at 1, ret at 1.
    unfold bind at 1, Client_GetWorkRequest, call. reduce. rewrite Hwr.
    unfold bind at 1, ret. now rewrite <- app_assoc.
Qed.

(** The end of [Delete], after the wait, only touches the identifier. *)
Lemma Delete_tail_fields (s1 : crud) :
  fields (D (snd ((err <- WaitForDeletedState ;;
                   match err with
                   | Some _ => crud.FilterMissingResourceError VoidState err
                   | None => VoidState ;; ret err
                   end)%go s1)))
  = fields (D (snd (resource.WaitForState (deletedConf (D s1)) s1))).
Proof.
  unfold WaitForDeletedState, bind, gets.
  destruct (resource.WaitForState (deletedConf (D s1)) s1) as [[[e|]|p] s2];
    [destruct e| |]; reflexivity.
Qed.

(** X13. Whatever the control plane answers, and however [Delete] ends,
    no field of the resource data other than [state] is changed by it. *)
Theorem Delete_only_writes_state (s : crud) :
  keepsFields (D s) (D (snd (Delete s))).
Proof.
  destruct (client.DeleteLoadBalancer (Client s) (ResourceData.Id (D s)))
    as [w1 [op [e|]]] eqn:Hdel.
  { unfold Delete. unfold bind at 1, gets at 1.
    unfold bind at 1, Client_DeleteLoadBalancer, call. rewrite Hdel.
    unfold bind at 1, ret. apply keepsFields_refl. }
  destruct (client.GetWorkRequest w1 op) as [w2 [o [e|]]] eqn:Hwr.
  { unfold Delete. unfold bind at 1, gets at 1.
    unfold bind at 1, Client_DeleteLoadBalancer, call. rewrite Hdel.
    unfold bind at 1, ret at 1.
    unfold bind at 1, Client_GetWorkRequest, call. reduce. rewrite Hwr.
    unfold bind at 1, ret. apply keepsFields_refl. }
  rewrite (Delete_until_wait s op w1 w2 o Hdel Hwr).
  intros key Hkey. rewrite Delete_tail_fields.
  unfold resource.WaitForState.
  revert key Hkey. change (keepsFields (D s)
    (D (snd (resource.poll (resource.Timeout (deletedConf (D (deleteStarted s op w2 o))))
                           (deletedConf (D (deleteStarted s op w2 o)))
                           (deleteStarted s op w2 o))))).
  apply (poll_invariant (fun x => keepsFields (D s) (D x)));
    [intros x; apply Get_keepsFields | reflexivity | apply keepsFields_refl].
Qed.

Lemma deletePending_pending d state :
  deletePending state ->
  (state ∉ resource.Target (deletedConf d)) /\
  (state ∈ resource.Pending (deletedConf d)).
Proof.
  intros [Hin Hne]. split; [|exact Hin].
  cbn [deletedConf resource.Target]. now rewrite list_elem_of_singleton.
Qed.

Lemma poll_Deletes h n w w' :
  Deletes h n w w' ->
  HasPrefix h loadBalancerPrefix = true ->
  forall (s : crud) d rounds,
    Client s = w -> ResourceData.Id (D s) = h -> n <= rounds ->
    exists res r,
      (res = None \/ res = Some NotFound) /\
      resource.poll rounds (deletedConf d) s =
        (Val res,
         BuildCrud (D s) w' (WorkRequest s) r
                   (Calls s ++ replicate n (client.GetLoadBalancerCall h))).
Proof.
  intros HD Hlb.
  induction HD as [w w' r Hc Hst | w w' r Hc | n w w1 w' r0 Hc Hpend HD IH];
    intros s d rounds Hw Hid Hle; subst w h;
    (destruct rounds as [|k]; [lia|]).
  - exists None, (Some r). split; [now left|]. eapply poll_target.
    + apply refresh_state; [now apply (Get_resource s w' (Some r) None)|].
      now apply State_of_resource.
    + rewrite Hst. cbn [deletedConf resource.Target]. now apply list_elem_of_singleton.
  - exists (Some NotFound), r. split; [now right|]. eapply poll_refresh_error.
    apply refresh_error. now apply (Get_resource s w' r (Some NotFound)).
  - destruct (deletePending_pending d _ Hpend) as [Hout Hin].
    erewrite poll_pending; [| | exact Hout | exact Hin].
    2:{ apply refresh_state; [now apply (Get_resource s w1 (Some r0) None)|].
        now apply State_of_resource. }
    match goal with |- context [resource.poll k _ ?s1] =>
      destruct (IH s1 d k) as (res & r & Hres & Hpoll);
        [reflexivity | reflexivity | lia |]
    end.
    exists res, r. split; [exact Hres|]. rewrite Hpoll. reduce.
    now rewrite <- app_assoc.
Qed.

(** X14. A delete of a load balancer identity in which the mutation and
    the status fetch succeed, and the load balancer is then fetched
    in a pending state for some rounds and finally in state Deleted or
    as not found, the rounds fitting in the deletion timeout: [Delete]
    returns no error and the identifier is empty; the fields are as they
    were; the work request of the deletion is fetched once and never
    again, every call of the wait being a fetch of the load balancer. *)
Theorem Delete_reaches_Deleted (s : crud) op w1 w2 w3 o n :
  HasPrefix (ResourceData.Id (D s)) loadBalancerPrefix = true ->
  client.DeleteLoadBalancer (Client s) (ResourceData.Id (D s)) = (w1, (op, None)) ->
  client.GetWorkRequest w1 op = (w2, (o, None)) ->
  Deletes (ResourceData.Id (D s)) n w2 w3 ->
  n <= ResourceData.Timeout TimeoutDelete (D s) ->
  exists s',
    Delete s = (Val None, s') /\
    ResourceData.Id (D s') = "" /\
    fields (D s') = fields (D s) /\
    WorkRequest s' = o /\ Client s' = w3 /\
    Calls s' = Calls s ++
      [client.DeleteLoadBalancerCall (ResourceData.Id (D s));
       client.GetWorkRequestCall op] ++
      replicate n (client.GetLoadBalancerCall (ResourceData.Id (D s))).
Proof.
  intros Hlb Hdel Hwr HD Hle.
  rewrite (Delete_until_wait s op w1 w2 o Hdel Hwr).
  destruct (poll_Deletes _ _ _ _ HD Hlb (deleteStarted s op w2 o) (D s)
              (ResourceData.Timeout TimeoutDelete (D s)))
    as (res & r & Hres & Hpoll); [reflexivity | reflexivity | exact Hle |].
  unfold bind at 1. unfold WaitForDeletedState, bind at 1, gets.
  unfold bind at 1, resource.WaitForState.
  change (resource.Timeout (deletedConf (D (deleteStarted s op w2 o))))
    with (ResourceData.Timeout TimeoutDelete (D s)).
  change (deletedConf (D (deleteStarted s op w2 o))) with (deletedConf (D s)).
  rewrite Hpoll.
  destruct Hres as [-> | ->]; cbn [crud.FilterMissingResourceError];
    eexists; (split; [reflexivity|]); unfold deleteStarted; reduce;
    do 4 (split; [reflexivity|]); now rewrite <- app_assoc.
Qed.

(** ** Update: the ways out *)

(** X15. [Update] gives up when the update mutation or the status fetch
    returns an error: the error is returned, no further call is made and
    no work request is cached; the fields and the identifier are as they
    were, and the partial mode, switched on at entry, is left on. *)
Theorem Update_failure_leaves_partial_mode (s : crud) w1 op :
  (forall e,
     client.UpdateLoadBalancer (Client s) (ResourceData.Id (D s))
       (asString (ResourceData.Get "display_name" (D s))) = (w1, (op, Some e)) ->
     Update s =
       (Val (Some e),
        BuildCrud (ResourceData.Partial true (D s)) w1 (WorkRequest s) (Resource s)
          (Calls s ++
           [client.UpdateLoadBalancerCall (ResourceData.Id (D s))
              (asString (ResourceData.Get "display_name" (D s)))]))) /\
  (forall w2 o e,
     client.UpdateLoadBalancer (Client s) (ResourceData.Id (D s))
       (asString (ResourceData.Get "display_name" (D s))) = (w1, (op, None)) ->
     client.GetWorkRequest w1 op = (w2, (o, Some e)) ->
     Update s =
       (Val (Some e),
        BuildCrud (ResourceData.Partial true (D s)) w2 (WorkRequest s) (Resource s)
          (Calls s ++
           [client.UpdateLoadBalancerCall (ResourceData.Id (D s))
              (asString (ResourceData.Get "display_name" (D s)));
            client.GetWorkRequestCall op]))).
Proof.
  assert (Hstart : forall k : string -> string -> crud -> Res (option error) * crud,
            (withD (ResourceData.Partial true) ;;
             displayName <- gets (fun s0 : crud =>
               let '(displayName, ok) := ResourceData.GetOk "display_name" (D s0) in
               if ok then asString displayName else "") ;;
             ident <- gets (fun s0 : crud => ResourceData.Id (D s0)) ;;
             k displayName ident)%go s
            = k (asString (ResourceData.Get "display_name" (D s)))
                (ResourceData.Id (D s))
                (BuildCrud (ResourceData.Partial true (D s)) (Client s)
                           (WorkRequest s) (Resource s) (Calls s))).
  { intros k. unfold bind at 1, withD at 1, modify at 1.
    unfold bind at 1, gets at 1. unfold bind at 1, gets at 1. reduce.
    change (ResourceData.GetOk "display_name" (ResourceData.Partial true (D s)))
      with (ResourceData.GetOk "display_name" (D s)).
    now rewrite display_name_of_GetOk. }
  split.
  - intros e Hupd. unfold Update. rewrite Hstart.
    unfold bind at 1, Client_UpdateLoadBalancer, call. reduce.
    rewrite Hupd.
    unfold bind at 1, ret. reflexivity.
  - intros w2 o e Hupd Hwr. unfold Update. rewrite Hstart.
    unfold bind at 1, Client_UpdateLoadBalancer, call. reduce.
    rewrite Hupd.
    unfold bind at 1, ret at 1.
    unfold bind at 1, Client_GetWorkRequest, call. reduce. rewrite Hwr.
    unfold bind at 1, ret. now rewrite <- app_assoc.
Qed.

(** ** The waits never mutate *)

Lemma Get_keeps_resolving (base : list client.Call) (s : crud) :
  (exists new, Calls s = base ++ new /\ Forall resolves new) ->
  exists new, Calls (snd (Get s)) = base ++ new /\ Forall resolves new.
Proof.
  intros (new & Hcalls & Hall).
  Get_cases s; cbn [snd]; reduce; rewrite Hcalls;
    (eexists; split; [rewrite <- ?app_assoc; reflexivity|]);
    repeat (apply Forall_app; split); try exact Hall;
    repeat constructor; assumption.
Qed.

Lemma wait_calls (conf : crud -> resource.StateChangeConf crud) (s : crud) :
  Calls (snd ((c <- gets conf ;;
               err <- resource.WaitForState c ;;
               match err with
               | Some _ => crud.FilterMissingResourceError VoidState err
               | None => ret None
               end)%go s))
  = Calls (snd (resource.WaitForState (conf s) s)).
Proof.
  unfold bind, gets.
  destruct (resource.WaitForState (conf s) s) as [[[e|]|p] s2];
    [destruct e| |]; reflexivity.
Qed.

(** X16. Whatever the control plane answers and however long they run,
    the create-wait and the delete-wait only issue calls that resolve an
    identity: status fetches of work request identifiers and fetches of
    load balancer identifiers.  A wait never issues a mutation. *)
Theorem waits_only_resolve (s : crud) :
  (exists new,
     Calls (snd (WaitForCreatedState s)) = Calls s ++ new /\ Forall resolves new) /\
  (exists new,
     Calls (snd (WaitForDeletedState s)) = Calls s ++ new /\ Forall resolves new).
Proof.
  split.
  - unfold WaitForCreatedState.
    rewrite (wait_calls (fun s0 => createdConf (D s0)) s).
    unfold resource.WaitForState.
    apply (poll_invariant
             (fun x => exists new, Calls x = Calls s ++ new /\ Forall resolves new));
      [intros x; apply Get_keeps_resolving | reflexivity |].
    exists []. split; [now rewrite app_nil_r | constructor].
  - unfold WaitForDeletedState.
    rewrite (wait_calls (fun s0 => deletedConf (D s0)) s).
    unfold resource.WaitForState.
    apply (poll_invariant
             (fun x => exists new, Calls x = Calls s ++ new /\ Forall resolves new));
      [intros x; apply Get_keeps_resolving | reflexivity |].
    exists []. split; [now rewrite app_nil_r | constructor].
Qed.

(** ** Reading back what was materialized *)

(** X17. [Read] is stable on materialized data: when the resource data
    is what [SetData] wrote for the load balancer [r], and the control
    plane still answers the fetch of that identifier with [r], [Read]
    returns no error and leaves the resource data exactly as it was. *)
Theorem Read_is_stable (s : crud) w r fs :
  HasPrefix (baremetal.LoadBalancer.ID r) loadBalancerPrefix = true ->
  ResourceData.Id (D s) = baremetal.LoadBalancer.ID r ->
  fields (D s) = written r fs ->
  client.GetLoadBalancer (Client s) (baremetal.LoadBalancer.ID r) = (w, (Some r, None)) ->
  exists s', Read s = (Val None, s') /\ D s' = D s /\ Resource s' = Some r.
Proof.
  intros Hlb Hid Hfields Hc.
  assert (Hne : baremetal.LoadBalancer.ID r ≠ "")
    by (eapply HasPrefix_nonempty; exact Hlb).
  rewrite <- Hid in Hlb, Hc.
  unfold Read. rewrite (bind_val _ _ _ _ _ (Get_resource s w (Some r) None Hlb Hc)).
  cbv beta iota.
  erewrite bind_val by (now apply (SetData_writes _ r)).
  unfold ret. reduce. eexists. split; [reflexivity|]. reduce.
  split; [|reflexivity].
  rewrite Hfields, written_twice, <- Hfields.
  unfold ResourceData.Id in Hid. rewrite <- Hid. now destruct (D s).
Qed.

End Properties.

(** * The properties on concrete runs

    The scripted control plane, under the state names of the
    specification. *)

Section Runs.
Import schema LoadBalancerResourceCrud.
#[local] Existing Instance Fixture.constants.
Local Open Scope list_scope.

Lemma State_derivation_witness :
  State (Fixture.receiver Fixture.lbID Fixture.declared
           (Some (Fixture.wr "Succeeded" Fixture.lbID)) (Some (Fixture.lb "Active")) [])
  = (Val "Active",
     Fixture.receiver Fixture.lbID Fixture.declared
       (Some (Fixture.wr "Succeeded" Fixture.lbID)) (Some (Fixture.lb "Active")) []) /\
  State (Fixture.receiver Fixture.opID Fixture.declared
           (Some (Fixture.wr "Waiting" "")) None [])
  = (Val "Waiting",
     Fixture.receiver Fixture.opID Fixture.declared
       (Some (Fixture.wr "Waiting" "")) None []) /\
  State (Fixture.receiver "" Fixture.declared None None [])
  = (Val "", Fixture.receiver "" Fixture.declared None None []).
Proof.
  split; [|split].
  - apply (proj1 (State_derivation _) (Fixture.lb "Active")). reflexivity.
  - apply (proj1 (proj2 (State_derivation _)) (Fixture.wr "Waiting" "")); reflexivity.
  - apply (proj2 (proj2 (State_derivation _))); reflexivity.
Defined.

Lemma ID_resolution_witness :
  ID (Fixture.receiver Fixture.lbID Fixture.declared
        (Some (Fixture.wr "Waiting" "")) (Some (Fixture.lb "Active")) [])
  = (Val Fixture.lbID,
     Fixture.receiver Fixture.lbID Fixture.declared
       (Some (Fixture.wr "Waiting" "")) (Some (Fixture.lb "Active")) []) /\
  ID (Fixture.receiver Fixture.opID Fixture.declared
        (Some (Fixture.wr "Succeeded" Fixture.lbID)) None [])
  = (Val Fixture.lbID,
     Fixture.receiver Fixture.opID Fixture.declared
       (Some (Fixture.wr "Succeeded" Fixture.lbID)) None []) /\
  ID (Fixture.receiver Fixture.opID Fixture.declared
        (Some (Fixture.wr "Waiting" "")) None [])
  = (Val Fixture.opID,
     Fixture.receiver Fixture.opID Fixture.declared
       (Some (Fixture.wr "Waiting" "")) None []).
Proof.
  split; [|split].
  - apply (proj1 (ID_resolution _) (Fixture.lb "Active")); [reflexivity | discriminate].
  - refine (proj1 (proj2 (ID_resolution _) _)
                  (Fixture.wr "Succeeded" Fixture.lbID) _ _);
      [discriminate | reflexivity | reflexivity].
  - refine (proj1 (proj2 (proj2 (ID_resolution _) _))
                  (Fixture.wr "Waiting" "") _ _);
      [discriminate | reflexivity | discriminate].
Defined.

Lemma SetData_materializes_witness :
  SetData (Fixture.receiver Fixture.opID Fixture.declared
             (Some (Fixture.wr "Waiting" "")) None [])
  = (Val tt, Fixture.receiver Fixture.opID Fixture.declared
               (Some (Fixture.wr "Waiting" "")) None []) /\
  exists d',
    snd (SetData (Fixture.receiver Fixture.opID Fixture.declared None
                    (Some (Fixture.lb "Active")) [])) =
      Fixture.receiver' d' None (Some (Fixture.lb "Active")) [] /\
    ResourceData.Id d' = Fixture.lbID /\
    ResourceData.Get "subnet_ids" d' = VList ["s1"; "s2"] /\
    ResourceData.Get "state" d' = VString "Active" /\
    ResourceData.Get "time_created" d' = VString "1970-01-01 00:00:00 +0000 UTC" /\
    ResourceData.Get "ip_addresses" d' = VList ["10.0.0.1"; "10.0.0.2"].
Proof.
  split; [apply (proj1 (SetData_materializes _)); discriminate|].
  destruct (proj2 (SetData_materializes
                     (Fixture.receiver Fixture.opID Fixture.declared None
                        (Some (Fixture.lb "Active")) []))
                  (Fixture.lb "Active") eq_refl ltac:(discriminate))
    as (d' & Hrun & Hid & _ & _ & _ & Hsub & _ & Hst & Htime & Hip).
  exists d'. rewrite Hrun. repeat split; assumption.
Defined.

Lemma Get_rejects_invalid_identity_witness :
  Get (Fixture.receiver "" Fixture.declared None None Fixture.createScript)
  = (Panic EmptyID, Fixture.receiver "" Fixture.declared None None Fixture.createScript) /\
  Get (Fixture.receiver "ocid1.instance.1" Fixture.declared None None Fixture.createScript)
  = (Panic (UnexpectedPrefix "ocid1.instance.1"),
     Fixture.receiver "ocid1.instance.1" Fixture.declared None None Fixture.createScript) /\
  exists p s',
    Get (Fixture.receiver Fixture.opID Fixture.declared None None
           [client.WorkRequestAnswer
              (Some (Fixture.wr "Succeeded" "ocid1.instance.1")) None])
    = (Panic p, s') /\ InvalidState p = true /\
    Calls s' = [client.GetWorkRequestCall Fixture.opID].
Proof.
  split; [|split].
  - destruct (proj1 (Get_rejects_invalid_identity
                       (Fixture.receiver "" Fixture.declared None None
                          Fixture.createScript)) eq_refl)
      as (p & Hrun & Hp).
    rewrite Hrun. destruct p; try discriminate Hp; [reflexivity | discriminate Hrun].
  - destruct (proj1 (proj2 (Get_rejects_invalid_identity
                              (Fixture.receiver "ocid1.instance.1" Fixture.declared
                                 None None Fixture.createScript))) eq_refl eq_refl)
      as (p & Hrun & Hp).
    rewrite Hrun. destruct p; try discriminate Hp; [discriminate Hrun|].
    now inversion Hrun.
  - refine (proj2 (proj2 (Get_rejects_invalid_identity _)) _ _ _ _ _ _ _ _);
      [reflexivity | reflexivity | reflexivity | discriminate | reflexivity].
Defined.

Lemma handoff_is_one_way_witness :
  let s := Fixture.receiver Fixture.opID Fixture.declared
             (Some (Fixture.wr "Waiting" "")) None
             [client.WorkRequestAnswer (Some (Fixture.wr "Succeeded" Fixture.lbID)) None;
              client.LoadBalancerAnswer (Some (Fixture.lb "Provisioning")) None;
              client.LoadBalancerAnswer (Some (Fixture.lb "Active")) None] in
  (ResourceData.Id (D (snd (Get s))) = Fixture.lbID /\ WorkRequest (snd (Get s)) = None) /\
  (forall n, exists later,
     Calls (snd (resolutions (S n) s)) = client.GetWorkRequestCall Fixture.opID :: later /\
     Forall (eq (client.GetLoadBalancerCall Fixture.lbID)) later).
Proof.
  intros s.
  refine (handoff_is_one_way s _ _ _ Fixture.lbID _ _ _ _ _);
    [reflexivity | reflexivity | reflexivity | reflexivity | discriminate].
Defined.

Lemma Read_of_pending_operation_witness :
  let s := Fixture.receiver Fixture.opID Fixture.declared None None
             [client.WorkRequestAnswer (Some (Fixture.wr "Waiting" "")) None] in
  exists res s',
    Read s = (Val res, s') /\
    Calls s' = [client.GetWorkRequestCall Fixture.opID] /\
    fields (D s') !! "state" = Some (VString "Waiting") /\
    (forall key, key ≠ "state" -> fields (D s') !! key = Fixture.declared !! key) /\
    (None ≠ Some NotFound -> res = None /\ ResourceData.Id (D s') = Fixture.opID).
Proof.
  intros s.
  refine (Read_of_pending_operation s _ (Fixture.wr "Waiting" "") None _ _ _ _);
    [discriminate | reflexivity | reflexivity | discriminate].
Defined.

Lemma Create_reaches_Active_witness :
  exists s2 s',
    resource.WaitForState
      {| resource.Pending := ["Waiting"; "Provisioning"];
         resource.Target := ["Active"];
         resource.Timeout := 5;
         resource.Refresh := refresh |}
      (BuildCrud
         (BuildResourceData Fixture.opID
            (<["state" := VString "Waiting"]> Fixture.declared) false (fun _ => 5))
         (drop 2 Fixture.createScript) (Some (Fixture.wr "Waiting" "")) None
         [client.CreateLoadBalancerCall "c1" "100Mbps" ["s1"; "s2"] "lb1";
          client.GetWorkRequestCall Fixture.opID])
      = (Val None, s2) /\
    createLoadBalancer (Fixture.data "" Fixture.declared) Fixture.createScript
      = (Val None, s') /\
    ResourceData.Id (D s') = "ocid1.loadbalancer.1" /\
    ResourceData.Get "state" (D s') = VString "Active" /\
    Client s' = [] /\ Calls s' = Calls s2 /\ Resource s' = Some (Fixture.lb "Active").
Proof.
  refine (Create_reaches_Active
            (newCrud (Fixture.data "" Fixture.declared) Fixture.createScript)
            Fixture.opID Fixture.lbID (Fixture.lb "Active") 1 _ _ _
            (Fixture.wr "Waiting" "") _ _ _ _ _ _ _ _ _ _ _);
    try reflexivity; try discriminate.
  - eapply succeeded; [reflexivity | reflexivity | reflexivity |].
    apply provisioned. reflexivity.
  - cbn. repeat constructor.
Defined.

Lemma Delete_outcome_witness :
  exists s',
    deleteLoadBalancer (Fixture.data Fixture.lbID Fixture.active) Fixture.deleteScript
      = (Val None, s') /\
    ResourceData.Id (D s') = "".
Proof.
  refine (Delete_outcome
            (newCrud (Fixture.data Fixture.lbID Fixture.active) Fixture.deleteScript)
            _ _ _ _ None _ _ _ _); reflexivity.
Defined.

Lemma Update_captures_operation_witness :
  let s := newCrud (Fixture.data Fixture.lbID Fixture.active) Fixture.updateScript in
  exists s',
    Update s = (Val None, s') /\
    s' = BuildCrud (ResourceData.Partial false (D s)) [] (Some (Fixture.wr "Accepted" ""))
           None
           [client.UpdateLoadBalancerCall Fixture.lbID "lb1";
            client.GetWorkRequestCall Fixture.opID] /\
    ResourceData.Get "state" (D s') = VString "Active" /\
    (forall wr, @None baremetal.LoadBalancer.t = None ->
       Some (Fixture.wr "Accepted" "") = Some wr ->
       State s' = (Val (baremetal.WorkRequest.State wr), s')).
Proof.
  intros s.
  refine (Update_captures_operation s Fixture.opID _ _ _ _ _ _);
    [discriminate | reflexivity | reflexivity].
Defined.

(** C3, the claim as stated fails: a delete started on a work request
    identity.  The wait hands the identity over to the load balancer and
    then fails on a service error; [Delete] returns that error with the
    identifier changed from the work request to the load balancer. *)
Lemma Delete_error_after_handoff_changes_identifier :
  let s := newCrud (Fixture.data Fixture.opID Fixture.declared)
                   Fixture.handoffThenFailure in
  exists e s',
    Delete s = (Val (Some e), s') /\ e ≠ NotFound /\
    ResourceData.Id (D s') ≠ ResourceData.Id (D s).
Proof.
  intros s. exists (ServiceError "unavailable"). eexists.
  split; [vm_compute; reflexivity|]. split; discriminate.
Qed.

(** C8, the claim as stated fails: [Update] on a load balancer whose
    persisted state is Active, the work request of the update being
    reported Accepted.  The persisted [state] field is still Active. *)
Lemma Update_leaves_persisted_state :
  let s := newCrud (Fixture.data Fixture.lbID Fixture.active) Fixture.updateScript in
  fst (Update s) = Val None /\
  exists wr, WorkRequest (snd (Update s)) = Some wr /\
    ResourceData.Get "state" (D (snd (Update s)))
      ≠ VString (baremetal.WorkRequest.State wr).
Proof.
  intros s. split; [reflexivity|].
  exists (Fixture.wr "Accepted" ""). split; [reflexivity|].
  vm_compute. discriminate.
Qed.

(** The other way the error of a status fetch is lost: it comes with a
    work request that is Succeeded, and the fetch of the load balancer
    overwrites it. *)
Example status_fetch_error_is_overwritten :
  let s := Fixture.receiver Fixture.opID Fixture.declared
             (Some (Fixture.wr "Waiting" "")) None
             [client.WorkRequestAnswer (Some (Fixture.wr "Succeeded" Fixture.lbID))
                                       (Some (ServiceError "unavailable"));
              client.LoadBalancerAnswer (Some (Fixture.lb "Active")) None] in
  fst (Get s) = Val None /\ fst (WaitForCreatedState s) = Val None.
Proof. vm_compute. split; reflexivity. Qed.

(** C5, the failing run: a create-wait on a work request identity whose
    status fetch fails, the client returning no work request with the
    error.  [Get] dereferences the missing work request; the wait and
    its caller are abandoned by the panic and the error of the fetch
    reaches nobody. *)
Theorem WaitForCreatedState_status_fetch_failure :
  let s := Fixture.receiver Fixture.opID Fixture.declared
             (Some (Fixture.wr "Waiting" "")) None Fixture.statusFetchFails in
  client.GetWorkRequest (Client s) Fixture.opID
    = ([], (None, Some (ServiceError "unavailable"))) /\
  fst (Get s) = Panic NilPointerDereference /\
  fst (WaitForCreatedState s) = Panic NilPointerDereference /\
  fst (WaitForCreatedState s) ≠ Val (Some (ServiceError "unavailable")).
Proof.
  intros s. repeat split; try reflexivity. discriminate.
Qed.

(** A create that takes three rounds: the work request is pending for
    one round, and the load balancer is still provisioning in the round
    of the handoff. *)
Example create_with_pending_rounds :
  let run := createLoadBalancer (Fixture.data "" Fixture.declared)
                                Fixture.slowCreateScript in
  fst run = Val None /\
  ResourceData.Id (D (snd run)) = Fixture.lbID /\
  ResourceData.Get "state" (D (snd run)) = VString "Active" /\
  Calls (snd run) =
    [client.CreateLoadBalancerCall "c1" "100Mbps" ["s1"; "s2"] "lb1";
     client.GetWorkRequestCall Fixture.opID;
     client.GetWorkRequestCall Fixture.opID;
     client.GetWorkRequestCall Fixture.opID;
     client.GetLoadBalancerCall Fixture.lbID;
     client.GetLoadBalancerCall Fixture.lbID].
Proof. vm_compute. repeat split. Qed.

(** A delete during which the load balancer disappears. *)
Example delete_of_missing_load_balancer :
  let run := deleteLoadBalancer (Fixture.data Fixture.lbID Fixture.active)
                                Fixture.goneScript in
  fst run = Val None /\ ResourceData.Id (D (snd run)) = "".
Proof. vm_compute. split; reflexivity. Qed.

(** ** Runs of the further properties *)

Lemma Get_returns_legal_identity_witness :
  let s := Fixture.receiver Fixture.opID Fixture.declared None None
             [client.WorkRequestAnswer (Some (Fixture.wr "Waiting" "")) None] in
  ResourceData.Id (D (snd (Get s))) ≠ "" /\
  ((HasPrefix (ResourceData.Id (D (snd (Get s)))) workRequestPrefix = true /\
    exists o, WorkRequest (snd (Get s)) = Some o /\
      baremetal.WorkRequest.State o ≠ baremetal.WorkRequestSucceeded) \/
   HasPrefix (ResourceData.Id (D (snd (Get s)))) loadBalancerPrefix = true).
Proof.
  intros s. apply (Get_returns_legal_identity s None). reflexivity.
Defined.

Lemma Read_of_load_balancer_witness :
  let s := newCrud (Fixture.data Fixture.lbID Fixture.declared)
             [client.LoadBalancerAnswer (Some (Fixture.lb "Active")) None] in
  exists s',
    Read s = (Val None, s') /\
    Calls s' = [client.GetLoadBalancerCall Fixture.lbID] /\
    Materialized (Fixture.lb "Active") (D s').
Proof.
  intros s.
  destruct (Read_of_load_balancer s [] (Some (Fixture.lb "Active")))
    as (s' & Hrun & _ & _ & _ & Hcalls & Hmat & _); [reflexivity | reflexivity |].
  exists s'. split; [exact Hrun|]. split; [exact Hcalls|].
  apply (Hmat (Fixture.lb "Active")); [reflexivity | discriminate].
Defined.

Lemma Read_of_failed_fetch_witness :
  let s := newCrud (Fixture.data Fixture.lbID Fixture.active)
             [client.LoadBalancerAnswer None (Some NotFound)] in
  exists s',
    Read s = (Val None, s') /\
    ResourceData.Id (D s') = "" /\
    fields (D s') = Fixture.active /\
    Resource s' = None /\
    Calls s' = [client.GetLoadBalancerCall Fixture.lbID].
Proof.
  intros s. refine (Read_of_failed_fetch s [] None NotFound _ _); reflexivity.
Defined.

Lemma Read_after_handoff_witness :
  let s := newCrud (Fixture.data Fixture.opID Fixture.declared)
             [client.WorkRequestAnswer (Some (Fixture.wr "Succeeded" Fixture.lbID))
                                       (Some (ServiceError "unavailable"));
              client.LoadBalancerAnswer (Some (Fixture.lb "Active")) None] in
  exists s',
    Read s = (Val None, s') /\
    Materialized (Fixture.lb "Active") (D s') /\
    WorkRequest s' = None /\ Resource s' = Some (Fixture.lb "Active") /\
    Client s' = [] /\
    Calls s' = [client.GetWorkRequestCall Fixture.opID;
                client.GetLoadBalancerCall Fixture.lbID].
Proof.
  intros s.
  refine (Read_after_handoff s _ _ (Fixture.wr "Succeeded" Fixture.lbID) _
            (Fixture.lb "Active") _ _ _ _ _ _);
    try reflexivity. discriminate.
Defined.

Lemma Create_fails_before_wait_witness :
  fst (createLoadBalancer (Fixture.data "" Fixture.declared) Fixture.refused)
    = Val (Some (ServiceError "refused")) /\
  D (snd (createLoadBalancer (Fixture.data "" Fixture.declared) Fixture.refused))
    = Fixture.data "" Fixture.declared /\
  fst (createLoadBalancer (Fixture.data "" Fixture.declared) Fixture.untracked)
    = Val (Some (ServiceError "unavailable")) /\
  D (snd (createLoadBalancer (Fixture.data "" Fixture.declared) Fixture.untracked))
    = Fixture.data "" Fixture.declared /\
  WorkRequest (snd (createLoadBalancer (Fixture.data "" Fixture.declared)
                                       Fixture.untracked)) = None.
Proof.
  unfold createLoadBalancer.
  rewrite (proj1 (Create_fails_before_wait
                    (newCrud (Fixture.data "" Fixture.declared) Fixture.refused)
                    [] "") (ServiceError "refused")) by reflexivity.
  rewrite (proj2 (Create_fails_before_wait
                    (newCrud (Fixture.data "" Fixture.declared) Fixture.untracked)
                    (drop 1 Fixture.untracked) Fixture.opID)
                 [] None (ServiceError "unavailable")) by reflexivity.
  repeat split.
Defined.

Lemma Create_wait_failure_keeps_identity_witness :
  exists s2,
    createLoadBalancer (Fixture.data "" Fixture.declared) Fixture.failedCreateScript
      = (Val (Some (UnexpectedStateError "Failed")), s2) /\
    ResourceData.Id (D s2) ≠ "".
Proof.
  eexists.
  refine (Create_wait_failure_keeps_identity
            (newCrud (Fixture.data "" Fixture.declared) Fixture.failedCreateScript)
            Fixture.opID _ _ (Fixture.wr "Waiting" "")
            (UnexpectedStateError "Failed") _ _ _ _ _ _ _ _);
    try reflexivity; discriminate.
Defined.

Lemma Create_materializes_witness :
  exists s',
    createLoadBalancer (Fixture.data "" Fixture.declared) Fixture.slowCreateScript
      = (Val None, s') /\
    Materialized (Fixture.lb "Active") (D s') /\
    length (Calls s') = 6 /\ Client s' = [].
Proof.
  edestruct (Create_materializes
               (newCrud (Fixture.data "" Fixture.declared) Fixture.slowCreateScript)
               Fixture.opID (drop 1 Fixture.slowCreateScript)
               (drop 2 Fixture.slowCreateScript) (Fixture.wr "Waiting" ""))
    as (s' & Hrun & Hmat & Hcalls & Hclient);
    [reflexivity | reflexivity | reflexivity | discriminate
     | vm_compute; reflexivity | reflexivity | discriminate |].
  exists s'. split; [exact Hrun|]. split; [exact Hmat|].
  rewrite Hcalls, Hclient. split; reflexivity.
Defined.

Lemma Create_absorbs_not_found_witness :
  exists s',
    createLoadBalancer (Fixture.data "" Fixture.declared) Fixture.vanishedCreateScript
      = (Val None, s') /\
    ResourceData.Id (D s') = "".
Proof.
  edestruct (Create_absorbs_not_found
               (newCrud (Fixture.data "" Fixture.declared) Fixture.vanishedCreateScript)
               Fixture.opID (drop 1 Fixture.vanishedCreateScript)
               (drop 2 Fixture.vanishedCreateScript) (Fixture.wr "Waiting" ""))
    as (s' & Hrun & _ & Hempty & _);
    [reflexivity | reflexivity | reflexivity | discriminate
     | vm_compute; reflexivity |].
  exists s'. split; [exact Hrun|].
  apply Hempty; [reflexivity | discriminate].
Defined.

Lemma Delete_fails_before_wait_witness :
  deleteLoadBalancer (Fixture.data Fixture.lbID Fixture.active) Fixture.refused
    = (Val (Some (ServiceError "refused")),
       BuildCrud (Fixture.data Fixture.lbID Fixture.active) [] None None
                 [client.DeleteLoadBalancerCall Fixture.lbID]) /\
  deleteLoadBalancer (Fixture.data Fixture.lbID Fixture.active) Fixture.untracked
    = (Val (Some (ServiceError "unavailable")),
       BuildCrud (Fixture.data Fixture.lbID Fixture.active) [] None None
                 [client.DeleteLoadBalancerCall Fixture.lbID;
                  client.GetWorkRequestCall Fixture.opID]).
Proof.
  split.
  - refine (proj1 (Delete_fails_before_wait
                     (newCrud (Fixture.data Fixture.lbID Fixture.active) Fixture.refused)
                     [] "") (ServiceError "refused") _); reflexivity.
  - refine (proj2 (Delete_fails_before_wait
                     (newCrud (Fixture.data Fixture.lbID Fixture.active)
                              Fixture.untracked)
                     (drop 1 Fixture.untracked) Fixture.opID)
                  [] None (ServiceError "unavailable") _ _); reflexivity.
Defined.

Lemma Delete_reaches_Deleted_witness :
  exists s',
    deleteLoadBalancer (Fixture.data Fixture.lbID Fixture.active) Fixture.deleteScript
      = (Val None, s') /\
    ResourceData.Id (D s') = "" /\
    fields (D s') = Fixture.active /\
    WorkRequest s' = Some (Fixture.wr "Waiting" "") /\ Client s' = [] /\
    Calls s' =
      [client.DeleteLoadBalancerCall Fixture.lbID;
       client.GetWorkRequestCall "ocid1.loadbalancerworkrequest.2";
       client.GetLoadBalancerCall Fixture.lbID;
       client.GetLoadBalancerCall Fixture.lbID;
       client.GetLoadBalancerCall Fixture.lbID].
Proof.
  refine (Delete_reaches_Deleted
            (newCrud (Fixture.data Fixture.lbID Fixture.active) Fixture.deleteScript)
            "ocid1.loadbalancerworkrequest.2" _ _ [] _ 3 _ _ _ _ _);
    try reflexivity.
  - eapply deleting; [reflexivity | split; [right; left | discriminate] |].
    eapply deleting; [reflexivity | split; [right; left | discriminate] |].
    eapply deleted; reflexivity.
  - cbn. repeat constructor.
Defined.

Lemma Update_failure_leaves_partial_mode_witness :
  let run := updateLoadBalancer (Fixture.data Fixture.lbID Fixture.active)
                                Fixture.untracked in
  fst run = Val (Some (ServiceError "unavailable")) /\
  partial (D (snd run)) = true /\
  fields (D (snd run)) = Fixture.active /\
  WorkRequest (snd run) = None.
Proof.
  intros run. unfold run, updateLoadBalancer.
  rewrite (proj2 (Update_failure_leaves_partial_mode
                    (newCrud (Fixture.data Fixture.lbID Fixture.active)
                             Fixture.untracked)
                    (drop 1 Fixture.untracked) Fixture.opID)
                 [] None (ServiceError "unavailable")) by reflexivity.
  repeat split.
Defined.

Lemma Read_is_stable_witness :
  let d := Fixture.data Fixture.lbID
             (written (Fixture.lb "Active") Fixture.declared) in
  exists s',
    readLoadBalancer d [client.LoadBalancerAnswer (Some (Fixture.lb "Active")) None]
      = (Val None, s') /\
    D s' = d /\ Resource s' = Some (Fixture.lb "Active").
Proof.
  intros d.
  refine (Read_is_stable
            (newCrud d [client.LoadBalancerAnswer (Some (Fixture.lb "Active")) None])
            [] (Fixture.lb "Active") Fixture.declared _ _ _ _); reflexivity.
Defined.

End Runs.
